(** * MAFORAI: flattening of transient-source records

    A shallow embedding of the record pipeline of the repository
    ([src/parser.py], [src/dataset.py], [src/lightcurves.py] and the pure
    part of [src/llm_copilot.py]) together with the properties its
    specification states about it.

    Layout: the Python values the code manipulates ([Py]), the part of
    pandas the code calls ([Pd]), one module per source file, a few sample
    records, and then the lemmas. *)

From Stdlib Require Import List String Ascii ZArith QArith Bool Lia.
From Stdlib Require Import Sorting.Sorted DecimalString.
From Stdlib Require Import Floats.
Import ListNotations.

Local Open Scope string_scope.
Local Open Scope list_scope.

Set Warnings "-register-all,-inexact-float".

(* ================================================================= *)
(** ** Python values, exceptions and the builtins the code relies on *)
(* ================================================================= *)

Module Py.

(** What [json.load] produces.  A [dict] keeps its items in insertion
    order (the order decides the columns of a table built from it), so it
    is an association list; the first binding of a key is the live one.
    A finite float is represented by the rational it denotes. *)
Inductive value : Type :=
| VNone
| VBool (b : bool)
| VInt (n : Z)
| VFloat (q : Q)
| VStr (s : string)
| VList (l : list value)
| VDict (d : list (string * value)).

Abbreviation dict := (list (string * value)).

(** The two exceptions the modelled code can raise, with their argument. *)
Inductive exn : Type :=
| KeyError (arg : string)
| AttributeError (arg : string).

Inductive result (A : Type) : Type :=
| Ok (a : A)
| Raise (e : exn).

Arguments Ok {A} a.
Arguments Raise {A} e.

Definition bind {A B : Type} (m : result A) (k : A -> result B) : result B :=
  match m with
  | Ok a => k a
  | Raise e => Raise e
  end.

(** [d.get(k)] on a dict: the value, or [None]. *)
Fixpoint dict_get (d : dict) (k : string) : value :=
  match d with
  | [] => VNone
  | (k', v) :: rest => if String.eqb k k' then v else dict_get rest k
  end.

(** [k in d] on a dict. *)
Fixpoint dict_contains (d : dict) (k : string) : bool :=
  match d with
  | [] => false
  | (k', _) :: rest => if String.eqb k k' then true else dict_contains rest k
  end.

(** [d[k]]: raises [KeyError(k)] when the key is missing. *)
Definition dict_item (d : dict) (k : string) : result value :=
  if dict_contains d k then Ok (dict_get d k) else Raise (KeyError k).

(** [type(v).__name__] *)
Definition type_name (v : value) : string :=
  match v with
  | VNone => "NoneType"
  | VBool _ => "bool"
  | VInt _ => "int"
  | VFloat _ => "float"
  | VStr _ => "str"
  | VList _ => "list"
  | VDict _ => "dict"
  end.

(** [v.get(k)] on an arbitrary value: only a dict has the method. *)
Definition py_get (v : value) (k : string) : result value :=
  match v with
  | VDict d => Ok (dict_get d k)
  | _ => Raise (AttributeError
                  ("'" ++ type_name v ++ "' object has no attribute 'get'"))
  end.

(** Truth value of an object, as [or] and [if] test it. *)
Definition truthy (v : value) : bool :=
  match v with
  | VNone => false
  | VBool b => b
  | VInt n => negb (Z.eqb n 0)
  | VFloat q => negb (Z.eqb (Qnum q) 0)
  | VStr s => negb (String.eqb s "")
  | VList l => match l with [] => false | _ => true end
  | VDict d => match d with [] => false | _ => true end
  end.

(** [a or b] *)
Definition py_or (a b : value) : value := if truthy a then a else b.

Definition is_none (v : value) : bool :=
  match v with VNone => true | _ => false end.

(** [isinstance(v, dict)] *)
Definition isinstance_dict (v : value) : bool :=
  match v with VDict _ => true | _ => false end.

(** [len(l)] as a Python int *)
Definition len {A : Type} (l : list A) : Z := Z.of_nat (List.length l).

(** [sorted(l)] on a list of [str]: ascending in the lexicographic order
    of the characters' codes.  The result of sorting is determined by the
    order alone when the elements are distinct, as they are at the one
    call site; insertion sort stands for the builtin. *)
Fixpoint insert_sorted (x : string) (l : list string) : list string :=
  match l with
  | [] => [x]
  | y :: ys => if String.leb x y then x :: l else y :: insert_sorted x ys
  end.

Definition sorted (l : list string) : list string :=
  fold_right insert_sorted [] l.


(** [s in t] on two [str]: [s] occurs in [t] as a contiguous run. *)
Fixpoint str_in (s t : string) : bool :=
  String.prefix s t ||
  match t with
  | EmptyString => false
  | String _ t' => str_in s t'
  end.

(** The ASCII characters [str.strip()] removes: tab, line feed, vertical
    tab, form feed, carriage return, the four separators 28-31, space. *)
Definition is_space (c : ascii) : bool :=
  let n := nat_of_ascii c in
  ((9 <=? n) && (n <=? 13) || (28 <=? n) && (n <=? 32))%nat.

Fixpoint lstrip (s : string) : string :=
  match s with
  | EmptyString => EmptyString
  | String c s' => if is_space c then lstrip s' else s
  end.

Fixpoint rstrip (s : string) : string :=
  match s with
  | EmptyString => EmptyString
  | String c s' =>
      let r := rstrip s' in
      if is_space c && String.eqb r "" then EmptyString else String c r
  end.

(** [s.strip()] *)
Definition strip (s : string) : string := rstrip (lstrip s).

(** [sep.join(parts)] *)
Fixpoint join (sep : string) (parts : list string) : string :=
  match parts with
  | [] => ""
  | [p] => p
  | p :: rest => p ++ sep ++ join sep rest
  end.

Definition nl : string := String (ascii_of_nat 10) EmptyString.

End Py.

Import Py.

Declare Scope py_scope.
Delimit Scope py_scope with py.
Notation "x <- m ;; k" := (bind m (fun x => k))
  (at level 61, m at next level, right associativity) : py_scope.
Local Open Scope py_scope.

(* ================================================================= *)
(** ** src/parser.py *)
(* ================================================================= *)

Module parser.

Definition required_fields : list string := ["id"; "ra"; "dec"; "score"].

(** The [for field in required_fields] loop of [validate_source]. *)
Fixpoint validate_fields (fields : list string) (obj : dict) : result unit :=
  match fields with
  | [] => Ok tt
  | field :: rest =>
      if negb (dict_contains obj field)
      then Raise (KeyError ("Missing required field: " ++ field))
      else validate_fields rest obj
  end.

Definition validate_source (obj : dict) : result unit :=
  validate_fields required_fields obj.

Definition parse_label (obj : dict) : result value :=
  let tns := py_or (dict_get obj "tns_info") (VDict []) in
  obj_type <- py_get tns "object_type" ;;
  if is_none obj_type then Ok VNone
  else py_get obj_type "name".

Definition parse_photometry (obj : dict) : result (list value) :=
  let tns := py_or (dict_get obj "tns_info") (VDict []) in
  raw <- py_get tns "photometry" ;;
  let photometry := py_or raw (VList []) in
  match photometry with
  | VList l => Ok l
  | _ => Ok []
  end.

Definition parse_spectra (obj : dict) : result (list value) :=
  let tns := py_or (dict_get obj "tns_info") (VDict []) in
  raw <- py_get tns "spectra" ;;
  let spectra := py_or raw (VList []) in
  match spectra with
  | VList l => Ok l
  | _ => Ok []
  end.

End parser.

Import parser.

(* ================================================================= *)
(** ** The part of pandas the code calls *)
(* ================================================================= *)

Module Pd.

(** A table: its column labels in order, and one record per row, each
    giving a cell for every column.  The cells are the Python values the
    table was built from: the conversion of each column to one dtype that
    pandas performs is not modelled, so only the column labels, the
    number of rows and the rows a table was built from are relied upon,
    never the stored cells. *)
Record DataFrame : Type := mkDataFrame {
  columns : list string;
  records : list dict
}.

Definition mem (k : string) (ks : list string) : bool :=
  existsb (String.eqb k) ks.

(** Labels of [ks] not yet in [cols] are appended, in their order. *)
Fixpoint add_keys (cols ks : list string) : list string :=
  match ks with
  | [] => cols
  | k :: rest => add_keys (if mem k cols then cols else cols ++ [k]) rest
  end.

(** Column labels of a table built from records: every key, in the order
    of its first appearance. *)
Definition union_keys (rows : list dict) : list string :=
  fold_left (fun cols r => add_keys cols (map fst r)) rows [].

(** A record laid out on the table's columns; a key the record lacks
    gives a missing cell ([VNone] stands for pandas' missing marker). *)
Definition reindex (cols : list string) (r : dict) : dict :=
  map (fun c => (c, dict_get r c)) cols.

(** [pd.DataFrame(rows)] for a list of dicts. *)
Definition DataFrame_of_records (rows : list dict) : DataFrame :=
  let cols := union_keys rows in
  mkDataFrame cols (map (reindex cols) rows).

(** An object column of strings: [None] is a missing cell. *)
Definition Series (A : Type) : Type := list (option A).

(** [s.dropna().tolist()] *)
Fixpoint dropna {A : Type} (s : Series A) : list A :=
  match s with
  | [] => []
  | Some x :: rest => x :: dropna rest
  | None :: rest => dropna rest
  end.

(** [s.unique()]: the distinct values in order of first appearance. *)
Fixpoint unique (l : list string) : list string :=
  match l with
  | [] => []
  | x :: xs => x :: filter (fun y => negb (String.eqb y x)) (unique xs)
  end.

(** A float64 column is a list of binary64 floats; NaN is its missing
    marker (a [None] put into such a column is stored as NaN). *)
Abbreviation float := PrimFloat.float.

(** One cell of [s.notna()] *)
Definition notna (x : float) : bool := negb (PrimFloat.is_nan x).

(** The smaller and the larger of two cells that are not NaN; of two
    cells that compare equal (0.0 and -0.0) the first is kept. *)
Definition fmin (a b : float) : float := if PrimFloat.leb a b then a else b.
Definition fmax (a b : float) : float := if PrimFloat.leb b a then a else b.

Definition reduce (f : float -> float -> float) (l : list float) : float :=
  match l with
  | [] => PrimFloat.nan
  | x :: xs => fold_left f xs x
  end.

(** [s.min()] and [s.max()] of a float64 column: missing cells are
    skipped; with no cell left the answer is NaN. *)
Definition series_min (s : list float) : float :=
  reduce fmin (List.filter notna s).
Definition series_max (s : list float) : float :=
  reduce fmax (List.filter notna s).

End Pd.

(* ================================================================= *)
(** ** src/dataset.py *)
(* ================================================================= *)

Module dataset.

Definition source_to_row (obj : value) : result (option dict) :=
  match obj with
  | VDict o =>
      _ <- validate_source o ;;
      photometry <- parse_photometry o ;;
      spectra <- parse_spectra o ;;
      id <- dict_item o "id" ;;
      ra <- dict_item o "ra" ;;
      dec <- dict_item o "dec" ;;
      label <- parse_label o ;;
      Ok (Some
        [ ("id", id);
          ("ra", ra);
          ("dec", dec);
          ("score", dict_get o "score");
          ("is_transient", dict_get o "transient");
          ("is_varstar", dict_get o "varstar");
          ("is_roid", dict_get o "is_roid");
          ("redshift", dict_get o "redshift");
          ("label", label);
          ("has_tns", VBool (isinstance_dict (dict_get o "tns_info")));
          ("has_redshift", VBool (negb (is_none (dict_get o "redshift"))));
          ("has_photometry", VBool (0 <? len photometry)%Z);
          ("has_spectra", VBool (0 <? len spectra)%Z);
          ("n_photometry", VInt (len photometry));
          ("n_spectra", VInt (len spectra)) ])
  | _ => Ok None
  end.

(** The [for obj in data] loop of [build_dataset]; [rows] is the list
    being appended to. *)
Fixpoint build_rows (data : list value) (rows : list dict)
  : result (list dict) :=
  match data with
  | [] => Ok rows
  | obj :: rest =>
      if negb (isinstance_dict obj) then build_rows rest rows
      else
        row <- source_to_row obj ;;
        match row with
        | Some r => build_rows rest (rows ++ [r])
        | None => build_rows rest rows
        end
  end.

Definition build_dataset (data : list value) : result Pd.DataFrame :=
  rows <- build_rows data [] ;;
  Ok (Pd.DataFrame_of_records rows).

(** One turn of the loop above, on its own: what a record adds to the
    rows gathered so far (used to state and prove facts about the loop). *)
Definition source_rows_of (obj : value) : result (list dict) :=
  if negb (isinstance_dict obj) then Ok []
  else row <- source_to_row obj ;;
       Ok (match row with Some r => [r] | None => [] end).

(** The keys of the dict literal [source_to_row] returns, in order. *)
Definition source_columns : list string :=
  ["id"; "ra"; "dec"; "score"; "is_transient"; "is_varstar"; "is_roid";
   "redshift"; "label"; "has_tns"; "has_redshift"; "has_photometry";
   "has_spectra"; "n_photometry"; "n_spectra"].

End dataset.

Import dataset.

(* ================================================================= *)
(** ** src/lightcurves.py *)
(* ================================================================= *)

Module lightcurves.

Definition photometry_point_to_row (source_id point : value)
  : result (option dict) :=
  if negb (isinstance_dict point) then Ok None
  else
    jd <- py_get point "jd" ;;
    flux <- py_get point "flux" ;;
    if is_none jd then Ok None
    else
      raw <- py_get point "filters" ;;
      let filters := py_or raw (VDict []) in
      filt_name <- (if isinstance_dict filters then py_get filters "name"
                    else Ok VNone) ;;
      flux_err <- py_get point "fluxerr" ;;
      Ok (Some
        [ ("id", source_id);
          ("jd", jd);
          ("flux", flux);
          ("flux_err", flux_err);
          ("filter", filt_name);
          ("is_detection", VBool (negb (is_none flux))) ]).

(** The [for point in photometry] loop shared by the two callers. *)
Fixpoint point_rows (source_id : value) (photometry : list value)
  (rows : list dict) : result (list dict) :=
  match photometry with
  | [] => Ok rows
  | point :: rest =>
      row <- photometry_point_to_row source_id point ;;
      match row with
      | Some r => point_rows source_id rest (rows ++ [r])
      | None => point_rows source_id rest rows
      end
  end.

Definition source_to_lightcurve_rows (obj : dict) : result (list dict) :=
  let source_id := dict_get obj "id" in
  photometry <- parse_photometry obj ;;
  point_rows source_id photometry [].

(** The [for obj in data] loop of [build_lightcurve_dataset]. *)
Fixpoint build_lightcurve_rows (data : list value) (rows : list dict)
  : result (list dict) :=
  match data with
  | [] => Ok rows
  | obj :: rest =>
      match obj with
      | VDict o =>
          let source_id := dict_get o "id" in
          if is_none source_id then build_lightcurve_rows rest rows
          else
            photometry <- parse_photometry o ;;
            rows' <- point_rows source_id photometry rows ;;
            build_lightcurve_rows rest rows'
      | _ => build_lightcurve_rows rest rows
      end
  end.

Definition build_lightcurve_dataset (data : list value)
  : result Pd.DataFrame :=
  rows <- build_lightcurve_rows data [] ;;
  Ok (Pd.DataFrame_of_records rows).

(** One turn of the loop above, on its own. *)
Definition lightcurve_rows_of (obj : value) : result (list dict) :=
  match obj with
  | VDict o =>
      if is_none (dict_get o "id") then Ok []
      else
        photometry <- parse_photometry o ;;
        point_rows (dict_get o "id") photometry []
  | _ => Ok []
  end.

(** A point that gets a row: a mapping whose [jd] is not [None]. *)
Definition jd_bearing (point : value) : bool :=
  match point with
  | VDict d => negb (is_none (dict_get d "jd"))
  | _ => false
  end.

(** The keys of the dict literal [photometry_point_to_row] returns. *)
Definition lightcurve_columns : list string :=
  ["id"; "jd"; "flux"; "flux_err"; "filter"; "is_detection"].

End lightcurves.

Import lightcurves.

(* ================================================================= *)
(** ** src/llm_copilot.py (the part that does not call the model) *)
(* ================================================================= *)

Module llm_copilot.

(** One row of a lightcurve table that has its columns, as the
    summarizer reads it: [jd], [flux] and [flux_err] are float64 columns
    (binary64 cells, infinities included, NaN for a missing cell) and
    [filter] is a column of strings with [None] for a missing cell. *)
Record lc_row : Type := mk_lc_row {
  lc_id : string;
  jd : Pd.float;
  flux : Pd.float;
  flux_err : Pd.float;
  filter : option string;
  is_detection : bool
}.

(** The table the summarizer is given: one that has its columns, or the
    table without any column, which is what [pd.DataFrame(rows)] is for an
    empty list of rows. *)
Inductive lightcurve_frame : Type :=
| NoColumns
| Table (rows : list lc_row).

(** What a numeric entry of the summary can be: Python's [None], or the
    float [float(...)] returns ([float] of a float64 scalar is that
    value, NaN included). *)
Inductive num_field : Type :=
| Absent
| Num (f : Pd.float).

(** The dict [summarize_lightcurve] returns always has the same six
    keys; it is a record here. *)
Record summary : Type := mk_summary {
  n_points : Z;
  n_detections : Z;
  filters : list string;
  flux_min : num_field;
  flux_max : num_field;
  time_span_days : num_field
}.

(** The body of [summarize_lightcurve] on the rows of a table that has
    its columns. *)
Definition summarize_rows (lc : list lc_row) : summary :=
  let detections := List.filter (fun r => Pd.notna (flux r)) lc in
  let n_points := len lc in
  let n_detections := len detections in
  let filters := sorted (Pd.unique (Pd.dropna (map filter lc))) in
  match detections with
  | _ :: _ =>
      let det_flux := map flux detections in
      let det_jd := map jd detections in
      mk_summary n_points n_detections filters
        (Num (Pd.series_min det_flux))
        (Num (Pd.series_max det_flux))
        (Num (PrimFloat.sub (Pd.series_max det_jd) (Pd.series_min det_jd)))
  | [] =>
      mk_summary n_points n_detections filters Absent Absent Absent
  end.

(** [lc["flux"]], the first thing evaluated, raises [KeyError('flux')] on
    the table without columns. *)
Definition summarize_lightcurve (lc : lightcurve_frame) : result summary :=
  match lc with
  | NoColumns => Raise (KeyError "flux")
  | Table rows => Ok (summarize_rows rows)
  end.

Section Rendering.

(** [repr] of a float (shortest digits that round-trip) and of a [str]
    (quoting and escapes) belong to the interpreter and are not modelled:
    the prompt is built for any two such functions. *)
Variable float_repr : Q -> string.
Variable str_repr : string -> string.

Definition int_str (n : Z) : string := NilZero.string_of_int (Z.to_int n).

Fixpoint py_repr (v : value) : string :=
  match v with
  | VNone => "None"
  | VBool true => "True"
  | VBool false => "False"
  | VInt n => int_str n
  | VFloat q => float_repr q
  | VStr s => str_repr s
  | VList l => ("[" ++ join ", " (map py_repr l) ++ "]")%string
  | VDict d =>
      ("{" ++ join ", "
                (map (fun kv => match kv with
                                | (k, x) => str_repr k ++ ": " ++ py_repr x
                                end) d)
           ++ "}")%string
  end.

(** [str(v)], which is what an f-string field [{v}] renders. *)
Definition py_str (v : value) : string :=
  match v with
  | VStr s => s
  | _ => py_repr v
  end.

(** The lines of the f-string of [build_prompt], between its opening and
    its closing line break. *)
Definition prompt_lines (source_row lc_summary : dict) : list string :=
  let src k := py_str (dict_get source_row k) in
  let lc k := py_str (dict_get lc_summary k) in
  ([ "The astronomer is mainly interested in:";
    "- Supernovae";
    "- Kilonovae";
    "- Other extragalactic transients";
    "";
    "They want to avoid:";
    "- Galactic variable stars";
    "- Minor objects";
    "- Artifacts";
    "";
    "=== Source metadata ===";
    "ID: " ++ src "id";
    "RA / Dec: " ++ src "ra" ++ ", " ++ src "dec";
    "Detection score: " ++ src "score";
    "";
    "Pipeline flags:";
    "- Is transient (heuristic): " ++ src "is_transient";
    "- Is variable star: " ++ src "is_varstar";
    "- Is minor object: " ++ src "is_roid";
    "";
    "High-confidence signals:";
    "- TNS reported: " ++ src "has_tns";
    "- Redshift available: " ++ src "has_redshift";
    "- Spectra available: " ++ src "has_spectra";
    "- Redshift value: " ++ src "redshift";
    "- TNS label (if any): " ++ src "label";
    "";
    "=== Lightcurve summary ===";
    "Number of photometry points: " ++ lc "n_points";
    "Number of detections: " ++ lc "n_detections";
    "Filters used: " ++ lc "filters";
    "Flux range: " ++ lc "flux_min" ++ " to " ++ lc "flux_max";
    "Observed time span (days): " ++ lc "time_span_days";
    "";
    "=== Task ===";
    "1. Summarize the key information an astronomer should know.";
    "2. Is this transient likely extragalactic? Briefly justify.";
    "3. Does this transient deserve follow-up observations?";
    "4. If yes, suggest what kind of follow-up (e.g. spectroscopy, more photometry).";
    "";
    "Be concise and explicit about uncertainty." ])%string.

Definition build_prompt (source_row lc_summary : dict) : string :=
  let prompt :=
    (nl ++ join nl (prompt_lines source_row lc_summary) ++ nl)%string in
  strip prompt.

End Rendering.

End llm_copilot.

Import llm_copilot.

(* ================================================================= *)
(** ** Sample records *)
(* ================================================================= *)

Module sample.

(** The two records of the specification's build example. *)
Definition bare_source : dict :=
  [("id", VInt 1); ("ra", VInt 0); ("dec", VInt 0); ("score", VFloat 0.5)].

Definition sn_source : dict :=
  [("id", VInt 2); ("ra", VInt 1); ("dec", VInt 1); ("score", VFloat 0.2);
   ("tns_info", VDict [("object_type", VDict [("name", VStr "SN Ia")])])].

(** A record without [score]. *)
Definition no_score_source : dict :=
  [("id", VInt 2); ("ra", VInt 1); ("dec", VInt 1)].

(** A valid record whose [tns_info] is a string. *)
Definition text_tns_source : dict :=
  [("id", VInt 3); ("ra", VInt 0); ("dec", VInt 0); ("score", VFloat 0.5);
   ("tns_info", VStr "x")].

(** Four photometry entries: a detection, a point without [jd], a
    string, and a non-detection. *)
Definition points : list value :=
  [VDict [("jd", VFloat 10); ("flux", VFloat 1);
          ("filters", VDict [("name", VStr "g")])];
   VDict [("flux", VFloat 3)];
   VStr "junk";
   VDict [("jd", VFloat 12); ("filters", VStr "r")]].

(** A record with an [id] and photometry, but no [ra], [dec], [score];
    its [spectra] is not a list. *)
Definition observed_source : dict :=
  [("id", VStr "s1");
   ("tns_info", VDict [("photometry", VList points);
                       ("spectra", VStr "none")])].

(** The same with the required fields. *)
Definition full_source : dict :=
  [("id", VStr "s1"); ("ra", VInt 0); ("dec", VInt 0); ("score", VFloat 0.5);
   ("tns_info", VDict [("photometry", VList points);
                       ("spectra", VStr "none")])].

(** A record with photometry but a null [id]. *)
Definition anonymous_source : dict :=
  [("id", VNone); ("ra", VInt 0);
   ("tns_info", VDict [("photometry", VList points)])].

(** A lightcurve table: one row without flux, two detections. *)
Definition lightcurve : list llm_copilot.lc_row :=
  [llm_copilot.mk_lc_row "s1" 5%float PrimFloat.nan PrimFloat.nan (Some "r")
     false;
   llm_copilot.mk_lc_row "s1" 10%float 1%float PrimFloat.nan (Some "g") true;
   llm_copilot.mk_lc_row "s1" 12%float 3%float PrimFloat.nan (Some "g") true].

(** A lightcurve table without any flux. *)
Definition upper_limits : list llm_copilot.lc_row :=
  [llm_copilot.mk_lc_row "s1" 10%float PrimFloat.nan PrimFloat.nan (Some "g")
     false].

(** Two detections at jd 0.1 and 0.8, and two at plus infinity. *)
Definition close_detections : list llm_copilot.lc_row :=
  [llm_copilot.mk_lc_row "s1" 0.1%float 1%float PrimFloat.nan None true;
   llm_copilot.mk_lc_row "s1" 0.8%float 2%float PrimFloat.nan None true].

Definition unbounded_detections : list llm_copilot.lc_row :=
  [llm_copilot.mk_lc_row "s1" PrimFloat.infinity 1%float PrimFloat.nan None true;
   llm_copilot.mk_lc_row "s1" PrimFloat.infinity 2%float PrimFloat.nan None true].

(** A source row and a summary with some entries missing. *)
Definition prompt_row : dict :=
  [("id", VStr "s1"); ("ra", VInt 10); ("dec", VInt (-5));
   ("is_transient", VBool true); ("has_tns", VBool false);
   ("label", VStr "SN Ia")].

Definition prompt_summary : dict :=
  [("n_points", VInt 3); ("n_detections", VInt 2);
   ("filters", VList [VStr "g"; VStr "r"])].

(** Stand-ins for the interpreter's [repr] of floats and strings. *)
Definition float_repr (q : Q) : string := "0.0".
Definition str_repr (s : string) : string := "'" ++ s ++ "'".

End sample.

(* ================================================================= *)
(** ** src/parser.py and src/lightcurves.py, continued *)
(* ================================================================= *)

Module more.

(** [parse_metadata] of src/parser.py. *)
Definition parse_metadata (obj : dict) : result dict :=
  _ <- validate_source obj ;;
  id <- dict_item obj "id" ;;
  ra <- dict_item obj "ra" ;;
  dec <- dict_item obj "dec" ;;
  Ok [ ("id", id);
       ("ra", ra);
       ("dec", dec);
       ("redshift", dict_get obj "redshift");
       ("score", dict_get obj "score");
       ("is_transient", dict_get obj "transient") ].

(** The dict literal at the end of [photometry_point_to_row], for a point
    that is the mapping [d]. *)
Definition point_row (source_id : value) (d : dict) : dict :=
  [ ("id", source_id);
    ("jd", dict_get d "jd");
    ("flux", dict_get d "flux");
    ("flux_err", dict_get d "fluxerr");
    ("filter", match dict_get d "filters" with
               | VDict f => dict_get f "name"
               | _ => VNone
               end);
    ("is_detection", VBool (negb (is_none (dict_get d "flux")))) ].

(** The rows of a photometry list, point by point, in order. *)
Definition rows_of_points (source_id : value) (photometry : list value)
  : list dict :=
  flat_map (fun point =>
              match point with
              | VDict d =>
                  if is_none (dict_get d "jd") then []
                  else [point_row source_id d]
              | _ => []
              end) photometry.

(** The exception [v.get(...)] raises when [v] is not a dict (the one
    [py_get] raises). *)
Definition no_get (v : value) : exn :=
  AttributeError ("'" ++ type_name v ++ "' object has no attribute 'get'").

(** The value [parse_photometry] and [parse_spectra] return for the key
    [k] when [tns_info] is [t] and nothing is raised. *)
Definition nested_list (t : value) (k : string) : list value :=
  match t with
  | VDict d => match dict_get d k with
               | VList l => l
               | _ => []
               end
  | _ => []
  end.

(** What one entry of the input adds to the lightcurve table, and the
    rows of the whole table, when nothing is raised. *)
Definition lightcurve_rows_for (obj : value) : list dict :=
  match obj with
  | VDict o =>
      if is_none (dict_get o "id") then []
      else rows_of_points (dict_get o "id")
             (nested_list (dict_get o "tns_info") "photometry")
  | _ => []
  end.

Definition lightcurve_table_rows (data : list value) : list dict :=
  flat_map lightcurve_rows_for data.

End more.

Import more.

(* ================================================================= *)
(** * Properties *)
(* ================================================================= *)

(** ** Dicts *)

Lemma dict_get_absent (d : dict) (k : string) :
  dict_contains d k = false -> dict_get d k = VNone.
Proof.
  induction d as [|[k' v] d IH]; simpl; [reflexivity|].
  destruct (String.eqb k k'); [discriminate | exact IH].
Qed.

Lemma dict_item_present (d : dict) (k : string) :
  dict_contains d k = true -> dict_item d k = Ok (dict_get d k).
Proof. intros H. unfold dict_item. now rewrite H. Qed.

Lemma is_none_spec (v : value) : is_none v = true <-> v = VNone.
Proof. destruct v; simpl; split; congruence. Qed.

(** ** Record validator *)

Lemma validate_fields_all_present (fields : list string) (obj : dict) :
  (forall f, In f fields -> dict_contains obj f = true) ->
  validate_fields fields obj = Ok tt.
Proof.
  induction fields as [|f fields IH]; intros H; simpl; [reflexivity|].
  rewrite (H f (or_introl eq_refl)). simpl.
  apply IH. intros g Hg. apply H. now right.
Qed.

Lemma validate_fields_first_absent (pre post : list string) (f : string)
  (obj : dict) :
  (forall g, In g pre -> dict_contains obj g = true) ->
  dict_contains obj f = false ->
  validate_fields (pre ++ f :: post) obj
  = Raise (KeyError ("Missing required field: " ++ f)).
Proof.
  induction pre as [|g pre IH]; intros Hpre Hf; simpl.
  - now rewrite Hf.
  - rewrite (Hpre g (or_introl eq_refl)). simpl.
    apply IH; [|exact Hf]. intros h Hh. apply Hpre. now right.
Qed.

Lemma validate_fields_same_presence (fields : list string) (o1 o2 : dict) :
  (forall f, In f fields -> dict_contains o1 f = dict_contains o2 f) ->
  validate_fields fields o1 = validate_fields fields o2.
Proof.
  induction fields as [|f fields IH]; intros H; simpl; [reflexivity|].
  rewrite (H f (or_introl eq_refl)).
  destruct (dict_contains o2 f); simpl; [|reflexivity].
  apply IH. intros g Hg. apply H. now right.
Qed.

Lemma validate_source_ok_inv (obj : dict) :
  validate_source obj = Ok tt ->
  forall f, In f required_fields -> dict_contains obj f = true.
Proof.
  unfold validate_source, required_fields. simpl.
  destruct (dict_contains obj "id") eqn:E1; simpl; [|discriminate].
  destruct (dict_contains obj "ra") eqn:E2; simpl; [|discriminate].
  destruct (dict_contains obj "dec") eqn:E3; simpl; [|discriminate].
  destruct (dict_contains obj "score") eqn:E4; simpl; [|discriminate].
  intros _ f [<-|[<-|[<-|[<-|[]]]]]; assumption.
Qed.

(** C1.  For every source record, [validate_source] (i) succeeds when the
    four required fields are present, (ii) otherwise raises the
    "Missing required field" error naming the first absent field in the
    order id, ra, dec, score, and (iii) depends on nothing but the
    presence of those four keys: two records that agree on them get the
    same outcome, whatever else they hold. *)
Theorem validate_source_first_missing (obj : dict) :
  ((forall f, In f required_fields -> dict_contains obj f = true) ->
   validate_source obj = Ok tt)
  /\ (forall pre f post,
        required_fields = pre ++ f :: post ->
        (forall g, In g pre -> dict_contains obj g = true) ->
        dict_contains obj f = false ->
        validate_source obj
        = Raise (KeyError ("Missing required field: " ++ f)))
  /\ (forall obj' : dict,
        (forall f, In f required_fields ->
                   dict_contains obj f = dict_contains obj' f) ->
        validate_source obj = validate_source obj').
Proof.
  split; [|split].
  - apply validate_fields_all_present.
  - intros pre f post E Hpre Hf. unfold validate_source. rewrite E.
    now apply validate_fields_first_absent.
  - intros obj'. apply validate_fields_same_presence.
Qed.

Lemma validate_source_first_missing_witness :
  validate_source sample.sn_source = Ok tt
  /\ validate_source sample.observed_source
     = Raise (KeyError "Missing required field: ra")
  /\ validate_source sample.bare_source
     = validate_source sample.text_tns_source.
Proof.
  split; [|split].
  - apply (proj1 (validate_source_first_missing _)).
    intros f [<-|[<-|[<-|[<-|[]]]]]; reflexivity.
  - apply (proj1 (proj2 (validate_source_first_missing _))
             ["id"] "ra" ["dec"; "score"]).
    + reflexivity.
    + intros g [<-|[]]. reflexivity.
    + reflexivity.
  - apply (proj2 (proj2 (validate_source_first_missing _))).
    intros f [<-|[<-|[<-|[<-|[]]]]]; reflexivity.
Defined.

(** ** Field extractors *)

(** The extractors succeed on every record whose [tns_info] is a dict or
    is falsy (absent, null, empty, zero). *)
Lemma parse_photometry_total (obj : dict) :
  isinstance_dict (dict_get obj "tns_info") = true
  \/ truthy (dict_get obj "tns_info") = false ->
  exists l, parse_photometry obj = Ok l.
Proof.
  intros H. unfold parse_photometry, py_or.
  destruct (truthy (dict_get obj "tns_info")) eqn:T.
  - destruct H as [H|H]; [|discriminate].
    destruct (dict_get obj "tns_info"); try discriminate. simpl.
    destruct (truthy (dict_get d "photometry"));
      [destruct (dict_get d "photometry")|]; eauto.
  - simpl. eauto.
Qed.

Lemma parse_spectra_total (obj : dict) :
  isinstance_dict (dict_get obj "tns_info") = true
  \/ truthy (dict_get obj "tns_info") = false ->
  exists l, parse_spectra obj = Ok l.
Proof.
  intros H. unfold parse_spectra, py_or.
  destruct (truthy (dict_get obj "tns_info")) eqn:T.
  - destruct H as [H|H]; [|discriminate].
    destruct (dict_get obj "tns_info"); try discriminate. simpl.
    destruct (truthy (dict_get d "spectra"));
      [destruct (dict_get d "spectra")|]; eauto.
  - simpl. eauto.
Qed.

(** The extractors raise nothing but [AttributeError]. *)
Lemma parse_photometry_error (obj : dict) (e : exn) :
  parse_photometry obj = Raise e -> exists m, e = AttributeError m.
Proof.
  unfold parse_photometry, py_or.
  destruct (truthy (dict_get obj "tns_info")).
  - destruct (dict_get obj "tns_info"); simpl;
      try (intros [= <-]; eauto; fail).
    destruct (truthy (dict_get d "photometry"));
      [destruct (dict_get d "photometry")|]; discriminate.
  - simpl. discriminate.
Qed.

(** C2.  On a valid source record whose [tns_info] is the string ["x"],
    not an object, photometry extraction and spectra extraction both raise
    [AttributeError] where an empty list is promised: the [or {}] default
    covers only a falsy [tns_info], and [.get] is then called on the
    string.  The error is not recovered locally: it surfaces from both
    dataset builders. *)
Theorem parse_photometry_non_object_tns_raises :
  parse_photometry sample.text_tns_source
  = Raise (AttributeError "'str' object has no attribute 'get'")
  /\ parse_spectra sample.text_tns_source
     = Raise (AttributeError "'str' object has no attribute 'get'")
  /\ build_dataset [VDict sample.text_tns_source]
     = Raise (AttributeError "'str' object has no attribute 'get'")
  /\ build_lightcurve_dataset [VDict sample.text_tns_source]
     = Raise (AttributeError "'str' object has no attribute 'get'").
Proof. repeat split; vm_compute; reflexivity. Qed.

(** ** Source flattener and source-level builder *)

Lemma build_rows_cons (obj : value) (rest : list value) (rows : list dict) :
  build_rows (obj :: rest) rows
  = (new <- source_rows_of obj ;; build_rows rest (rows ++ new)).
Proof.
  simpl. unfold source_rows_of.
  destruct (negb (isinstance_dict obj)); simpl.
  - now rewrite app_nil_r.
  - destruct (source_to_row obj) as [[r|]|e]; simpl;
      rewrite ?app_nil_r; reflexivity.
Qed.

Lemma build_rows_app (a b : list value) (rows : list dict) :
  build_rows (a ++ b) rows
  = (rows' <- build_rows a rows ;; build_rows b rows').
Proof.
  revert rows. induction a as [|x a IH]; intros rows; [reflexivity|].
  rewrite <- app_comm_cons, !build_rows_cons.
  destruct (source_rows_of x) as [new|e]; simpl; [apply IH | reflexivity].
Qed.

Lemma build_rows_skips_non_dicts (data : list value) (rows : list dict) :
  build_rows (List.filter isinstance_dict data) rows = build_rows data rows.
Proof.
  revert rows. induction data as [|x data IH]; intros rows; [reflexivity|].
  simpl List.filter. destruct (isinstance_dict x) eqn:D.
  - rewrite !build_rows_cons.
    destruct (source_rows_of x); simpl; [apply IH | reflexivity].
  - simpl. rewrite D. simpl. apply IH.
Qed.

Lemma build_rows_all_ok (data : list value) (rows : list dict) :
  (forall x, In x data -> exists r, source_to_row x = Ok r) ->
  exists rows', build_rows data rows = Ok rows'.
Proof.
  revert rows. induction data as [|x data IH]; intros rows H.
  - simpl. eauto.
  - rewrite build_rows_cons. unfold source_rows_of.
    destruct (H x (or_introl eq_refl)) as [r Hr]. rewrite Hr.
    destruct (negb (isinstance_dict x)); simpl;
      apply IH; intros y Hy; apply H; now right.
Qed.

Lemma build_rows_stops (pre post : list value) (o : dict) (e : exn)
  (rows : list dict) :
  (forall x, In x pre -> exists r, source_to_row x = Ok r) ->
  validate_source o = Raise e ->
  build_rows (pre ++ VDict o :: post) rows = Raise e.
Proof.
  intros Hpre Hv. rewrite build_rows_app.
  destruct (build_rows_all_ok pre rows Hpre) as [rows' ->]. simpl.
  now rewrite Hv.
Qed.

Lemma build_rows_fails (data : list value) (o : dict) (e : exn)
  (rows : list dict) :
  In (VDict o) data ->
  validate_source o = Raise e ->
  exists e', build_rows data rows = Raise e'.
Proof.
  intros Hin Hv. apply in_split in Hin. destruct Hin as [pre [post ->]].
  rewrite build_rows_app.
  destruct (build_rows pre rows) as [rows'|e']; simpl; [|eauto].
  rewrite Hv. simpl. eauto.
Qed.

(** C3.  [build_dataset] (i) gives the same outcome with the non-mapping
    entries removed from its input, so they are skipped silently; (ii)
    fails as a whole as soon as its input holds a mapping that
    [validate_source] rejects; and (iii) when the records before that
    mapping are flattened without error, the failure is the validation
    error itself, whatever follows the mapping. *)
Theorem build_dataset_missing_field_is_fatal (data : list value) :
  build_dataset (List.filter isinstance_dict data) = build_dataset data
  /\ (forall o e,
        In (VDict o) data ->
        validate_source o = Raise e ->
        exists e', build_dataset data = Raise e')
  /\ (forall pre o post e,
        data = pre ++ VDict o :: post ->
        (forall x, In x pre -> exists r, source_to_row x = Ok r) ->
        validate_source o = Raise e ->
        build_dataset data = Raise e).
Proof.
  unfold build_dataset. split; [|split].
  - now rewrite build_rows_skips_non_dicts.
  - intros o e Hin Hv.
    destruct (build_rows_fails data o e [] Hin Hv) as [e' ->].
    simpl. eauto.
  - intros pre o post e -> Hpre Hv.
    now rewrite (build_rows_stops pre post o e [] Hpre Hv).
Qed.

Lemma build_dataset_missing_field_is_fatal_witness :
  (exists e',
     build_dataset [VStr "not-a-dict"; VDict sample.bare_source;
                    VDict sample.no_score_source; VDict sample.sn_source]
     = Raise e')
  /\ build_dataset [VStr "not-a-dict"; VDict sample.bare_source;
                    VDict sample.no_score_source; VDict sample.sn_source]
     = Raise (KeyError "Missing required field: score").
Proof.
  split.
  - apply (proj1 (proj2 (build_dataset_missing_field_is_fatal _))
             sample.no_score_source
             (KeyError "Missing required field: score")).
    + right. right. left. reflexivity.
    + reflexivity.
  - apply (proj2 (proj2 (build_dataset_missing_field_is_fatal _))
             [VStr "not-a-dict"; VDict sample.bare_source]
             sample.no_score_source
             [VDict sample.sn_source]).
    + reflexivity.
    + intros x [<-|[<-|[]]]; eexists; reflexivity.
    + reflexivity.
Defined.

(** The build example of the specification: the string is skipped and
    two rows come out, the second labelled ["SN Ia"]. *)
Example build_dataset_example :
  (df <- build_dataset [VDict sample.bare_source; VStr "not-a-dict";
                        VDict sample.sn_source] ;;
   Ok (map (fun r => dict_get r "label") (Pd.records df)))
  = Ok [VNone; VStr "SN Ia"].
Proof. vm_compute. reflexivity. Qed.

(** ** Tables built from rows *)

Ltac bind_inv H :=
  repeat match type of H with
         | bind ?m _ = Ok _ =>
             let E := fresh "E" in
             destruct m eqn:E; simpl in H; [|discriminate H]
         end.

Lemma union_keys_uniform (K : list string) (rows : list dict) :
  Pd.add_keys K K = K ->
  Forall (fun r => map fst r = K) rows ->
  fold_left (fun cols r => Pd.add_keys cols (map fst r)) rows K = K.
Proof.
  intros HK. induction 1 as [|r rows Hr _ IH]; simpl; [reflexivity|].
  now rewrite Hr, HK.
Qed.

Lemma columns_of_uniform_rows (K : list string) (rows : list dict) :
  Pd.add_keys [] K = K ->
  Pd.add_keys K K = K ->
  rows <> [] ->
  Forall (fun r => map fst r = K) rows ->
  Pd.columns (Pd.DataFrame_of_records rows) = K.
Proof.
  intros H0 HK Hne Hall. destruct rows as [|r rows]; [congruence|].
  pose proof (Forall_inv Hall) as Hr.
  pose proof (Forall_inv_tail Hall) as Hrows.
  simpl in Hr. simpl. unfold Pd.union_keys. simpl. rewrite Hr, H0.
  now apply union_keys_uniform.
Qed.

Lemma records_nil_inv (rows : list dict) :
  Pd.records (Pd.DataFrame_of_records rows) = [] -> rows = [].
Proof. destruct rows; simpl; [reflexivity | discriminate]. Qed.

Lemma source_to_row_keys (obj : value) (r : dict) :
  source_to_row obj = Ok (Some r) -> map fst r = source_columns.
Proof.
  destruct obj; simpl; try discriminate. intros H. bind_inv H.
  injection H as <-. reflexivity.
Qed.

Lemma build_rows_keys (data : list value) (rows rows' : list dict) :
  Forall (fun r => map fst r = source_columns) rows ->
  build_rows data rows = Ok rows' ->
  Forall (fun r => map fst r = source_columns) rows'.
Proof.
  revert rows. induction data as [|x data IH]; intros rows Hrows H.
  - simpl in H. now injection H as <-.
  - rewrite build_rows_cons in H. unfold source_rows_of in H.
    destruct (negb (isinstance_dict x)); simpl in H.
    + eapply IH; [|exact H]. now rewrite app_nil_r.
    + destruct (source_to_row x) as [[r|]|e] eqn:E; simpl in H;
        [| |discriminate].
      * eapply IH; [|exact H]. apply Forall_app. split; [assumption|].
        constructor; [|constructor]. eapply source_to_row_keys; eassumption.
      * eapply IH; [|exact H]. now rewrite app_nil_r.
Qed.

Lemma photometry_point_to_row_keys (sid point : value) (r : dict) :
  photometry_point_to_row sid point = Ok (Some r) ->
  map fst r = lightcurve_columns.
Proof.
  unfold photometry_point_to_row.
  destruct point; simpl; try discriminate.
  destruct (is_none (dict_get d "jd")); [discriminate|].
  intros H. bind_inv H. injection H as <-. reflexivity.
Qed.

Lemma point_rows_keys (sid : value) (ph : list value)
  (rows rows' : list dict) :
  Forall (fun r => map fst r = lightcurve_columns) rows ->
  point_rows sid ph rows = Ok rows' ->
  Forall (fun r => map fst r = lightcurve_columns) rows'.
Proof.
  revert rows. induction ph as [|p ph IH]; intros rows Hrows H; simpl in H.
  - now injection H as <-.
  - destruct (photometry_point_to_row sid p) as [[r|]|e] eqn:E; simpl in H;
      [| |discriminate].
    + eapply IH; [|exact H]. apply Forall_app. split; [assumption|].
      constructor; [|constructor].
      eapply photometry_point_to_row_keys; eassumption.
    + eapply IH; eassumption.
Qed.

Lemma build_lightcurve_rows_keys (data : list value)
  (rows rows' : list dict) :
  Forall (fun r => map fst r = lightcurve_columns) rows ->
  build_lightcurve_rows data rows = Ok rows' ->
  Forall (fun r => map fst r = lightcurve_columns) rows'.
Proof.
  revert rows. induction data as [|x data IH]; intros rows Hrows H;
    simpl in H.
  - now injection H as <-.
  - destruct x; try (eapply IH; eassumption).
    destruct (is_none (dict_get d "id")); [eapply IH; eassumption|].
    bind_inv H. eapply IH; [|exact H].
    eapply point_rows_keys; eassumption.
Qed.

(** C4, as the code has it.  The table built from the empty sequence has
    no row and no column, for both builders; more generally a build that
    emits no row gives a table without columns, and a build that emits at
    least one row gives exactly the fifteen source columns, respectively
    the six lightcurve columns. *)
Theorem empty_build_has_no_columns :
  build_dataset [] = Ok (Pd.mkDataFrame [] [])
  /\ build_lightcurve_dataset [] = Ok (Pd.mkDataFrame [] [])
  /\ (forall data df,
        build_dataset data = Ok df ->
        (Pd.records df = [] -> Pd.columns df = [])
        /\ (Pd.records df <> [] -> Pd.columns df = source_columns))
  /\ (forall data df,
        build_lightcurve_dataset data = Ok df ->
        (Pd.records df = [] -> Pd.columns df = [])
        /\ (Pd.records df <> [] -> Pd.columns df = lightcurve_columns)).
Proof.
  split; [reflexivity|]. split; [reflexivity|]. split.
  - intros data df H. unfold build_dataset in H. bind_inv H.
    injection H as <-. split.
    + intros Hr. apply records_nil_inv in Hr. now subst.
    + intros Hr. apply columns_of_uniform_rows; try reflexivity.
      * intros ->. now apply Hr.
      * eapply build_rows_keys; [|eassumption]. constructor.
  - intros data df H. unfold build_lightcurve_dataset in H. bind_inv H.
    injection H as <-. split.
    + intros Hr. apply records_nil_inv in Hr. now subst.
    + intros Hr. apply columns_of_uniform_rows; try reflexivity.
      * intros ->. now apply Hr.
      * eapply build_lightcurve_rows_keys; [|eassumption]. constructor.
Qed.

Lemma empty_build_has_no_columns_witness :
  (df <- build_dataset [VDict sample.bare_source] ;; Ok (Pd.columns df))
  = Ok source_columns
  /\ (df <- build_lightcurve_dataset [VDict sample.observed_source] ;;
      Ok (Pd.columns df))
     = Ok lightcurve_columns.
Proof.
  split.
  - destruct (build_dataset [VDict sample.bare_source]) as [df|e] eqn:E;
      [|vm_compute in E; discriminate E].
    cbn [bind]. f_equal.
    apply (proj2 (proj1 (proj2 (proj2 empty_build_has_no_columns))
                    _ df E)).
    vm_compute in E. injection E as <-. discriminate.
  - destruct (build_lightcurve_dataset [VDict sample.observed_source])
      as [df|e] eqn:E; [|vm_compute in E; discriminate E].
    cbn [bind]. f_equal.
    apply (proj2 (proj2 (proj2 (proj2 empty_build_has_no_columns))
                    _ df E)).
    vm_compute in E. injection E as <-. discriminate.
Defined.

(** C4, as stated, fails: for either builder the table built from the
    empty sequence has no column at all, while the table of a non-empty
    build has the fixed columns. *)
Lemma empty_build_lacks_the_columns :
  ((df <- build_dataset [] ;; Ok (Pd.columns df)) = Ok []
   /\ (df <- build_dataset [VDict sample.bare_source] ;;
       Ok (Pd.columns df)) = Ok source_columns
   /\ [] <> source_columns)
  /\ ((df <- build_lightcurve_dataset [] ;; Ok (Pd.columns df)) = Ok []
      /\ (df <- build_lightcurve_dataset [VDict sample.observed_source] ;;
          Ok (Pd.columns df)) = Ok lightcurve_columns
      /\ [] <> lightcurve_columns).
Proof.
  repeat split; try (vm_compute; reflexivity); discriminate.
Qed.

(** ** Lightcurve flattener *)

(** The filter name as a function of the point: the guarded
    [filters.get("name")] collapses to this. *)
Lemma filter_name_guarded (raw : value) :
  (let filters := py_or raw (VDict []) in
   if isinstance_dict filters then py_get filters "name" else Ok VNone)
  = Ok (match raw with VDict f => dict_get f "name" | _ => VNone end).
Proof.
  unfold py_or. destruct raw as [ |b|n|q|s|l|f]; simpl; try reflexivity.
  - now destruct b.
  - now destruct (Z.eqb n 0).
  - now destruct (Z.eqb (Qnum q) 0).
  - now destruct (String.eqb s "").
  - now destruct l.
  - now destruct f.
Qed.

Lemma photometry_point_to_row_dict (sid : value) (d : dict) :
  photometry_point_to_row sid (VDict d)
  = if is_none (dict_get d "jd") then Ok None
    else Ok (Some
      [ ("id", sid);
        ("jd", dict_get d "jd");
        ("flux", dict_get d "flux");
        ("flux_err", dict_get d "fluxerr");
        ("filter", match dict_get d "filters" with
                   | VDict f => dict_get f "name"
                   | _ => VNone
                   end);
        ("is_detection", VBool (negb (is_none (dict_get d "flux")))) ]).
Proof.
  unfold photometry_point_to_row. simpl.
  destruct (is_none (dict_get d "jd")); [reflexivity|].
  pose proof (filter_name_guarded (dict_get d "filters")) as F.
  simpl in F. rewrite F. reflexivity.
Qed.

Lemma photometry_point_to_row_total (sid point : value) :
  exists r, photometry_point_to_row sid point = Ok r.
Proof.
  destruct point; try (eexists; reflexivity).
  rewrite photometry_point_to_row_dict.
  destruct (is_none (dict_get d "jd")); eauto.
Qed.

(** C5.  For every photometry point and source id, [photometry_point_to_row]
    never raises; it gives no row when the point is not a mapping or when
    its [jd] is absent (key missing, or null); when [jd] has a value it
    gives a row whose [is_detection] is "the [flux] key is present and its
    value is not null", hence [False] when [flux] is absent; and the row's
    [filter] is the [name] of [filters] when that is a mapping and absent
    otherwise (missing, null or malformed [filters]). *)
Theorem photometry_point_to_row_contract (sid point : value) :
  (exists r, photometry_point_to_row sid point = Ok r)
  /\ (isinstance_dict point = false ->
      photometry_point_to_row sid point = Ok None)
  /\ (forall d, point = VDict d ->
        (dict_contains d "jd" = false ->
         photometry_point_to_row sid point = Ok None)
        /\ (dict_get d "jd" = VNone ->
            photometry_point_to_row sid point = Ok None)
        /\ (dict_get d "jd" <> VNone ->
            exists row,
              photometry_point_to_row sid point = Ok (Some row)
              /\ dict_get row "id" = sid
              /\ dict_get row "jd" = dict_get d "jd"
              /\ dict_get row "flux" = dict_get d "flux"
              /\ dict_get row "is_detection"
                 = VBool (dict_contains d "flux"
                          && negb (is_none (dict_get d "flux")))
              /\ (dict_contains d "flux" = false ->
                  dict_get row "is_detection" = VBool false)
              /\ dict_get row "filter"
                 = match dict_get d "filters" with
                   | VDict f => dict_get f "name"
                   | _ => VNone
                   end
              /\ (isinstance_dict (dict_get d "filters") = false ->
                  dict_get row "filter" = VNone))).
Proof.
  split; [apply photometry_point_to_row_total|]. split.
  - destruct point; simpl; intros H; try reflexivity; discriminate.
  - intros d ->. rewrite photometry_point_to_row_dict.
    split; [|split].
    + intros H. now rewrite (dict_get_absent _ _ H).
    + intros H. now rewrite H.
    + intros H. destruct (is_none (dict_get d "jd")) eqn:N.
      { apply is_none_spec in N. contradiction. }
      eexists. split; [reflexivity|]. simpl.
      repeat split.
      * destruct (dict_contains d "flux") eqn:C; simpl; [reflexivity|].
        now rewrite (dict_get_absent _ _ C).
      * intros C. now rewrite (dict_get_absent _ _ C).
      * intros F. now destruct (dict_get d "filters").
Qed.

Lemma photometry_point_to_row_contract_witness :
  photometry_point_to_row (VStr "s1") (VStr "junk") = Ok None
  /\ photometry_point_to_row (VStr "s1") (VDict [("flux", VFloat 3)])
     = Ok None
  /\ exists row,
       photometry_point_to_row (VStr "s1")
         (VDict [("jd", VFloat 12); ("filters", VStr "r")])
       = Ok (Some row)
       /\ dict_get row "is_detection" = VBool false
       /\ dict_get row "filter" = VNone.
Proof.
  split; [|split].
  - apply (proj1 (proj2 (photometry_point_to_row_contract _ _))).
    reflexivity.
  - apply (proj1 (proj2 (proj2 (photometry_point_to_row_contract _ _))
                    _ eq_refl)).
    reflexivity.
  - destruct (proj2 (proj2 (proj2 (proj2
                (photometry_point_to_row_contract (VStr "s1")
                   (VDict [("jd", VFloat 12); ("filters", VStr "r")])))
                _ eq_refl))
                ltac:(simpl; discriminate))
      as [row [H [_ [_ [_ [_ [Hd [_ Hf]]]]]]]].
    exists row. split; [exact H|]. split.
    + apply Hd. reflexivity.
    + apply Hf. reflexivity.
Defined.

(** ** Presence and count fields of a source row *)

Lemma source_to_row_valid (o : dict) (ph sp : list value) (l : value) :
  validate_source o = Ok tt ->
  parse_photometry o = Ok ph ->
  parse_spectra o = Ok sp ->
  parse_label o = Ok l ->
  source_to_row (VDict o)
  = Ok (Some
      [ ("id", dict_get o "id");
        ("ra", dict_get o "ra");
        ("dec", dict_get o "dec");
        ("score", dict_get o "score");
        ("is_transient", dict_get o "transient");
        ("is_varstar", dict_get o "varstar");
        ("is_roid", dict_get o "is_roid");
        ("redshift", dict_get o "redshift");
        ("label", l);
        ("has_tns", VBool (isinstance_dict (dict_get o "tns_info")));
        ("has_redshift", VBool (negb (is_none (dict_get o "redshift"))));
        ("has_photometry", VBool (0 <? len ph)%Z);
        ("has_spectra", VBool (0 <? len sp)%Z);
        ("n_photometry", VInt (len ph));
        ("n_spectra", VInt (len sp)) ]).
Proof.
  intros Hv Hp Hs Hl. simpl. rewrite Hv, Hp, Hs, Hl. simpl.
  pose proof (validate_source_ok_inv o Hv) as Hin.
  rewrite !dict_item_present by (apply Hin; simpl; tauto).
  reflexivity.
Qed.

Lemma source_to_row_some_inv (obj : value) (row : dict) :
  source_to_row obj = Ok (Some row) ->
  exists o ph sp l,
    obj = VDict o /\ validate_source o = Ok tt
    /\ parse_photometry o = Ok ph /\ parse_spectra o = Ok sp
    /\ parse_label o = Ok l.
Proof.
  destruct obj as [ | | | | | |o]; simpl; try discriminate.
  destruct (validate_source o) as [[]|] eqn:Hv; simpl; [|discriminate].
  destruct (parse_photometry o) as [ph|] eqn:Hp; simpl; [|discriminate].
  destruct (parse_spectra o) as [sp|] eqn:Hs; simpl; [|discriminate].
  intros H. bind_inv H.
  exists o, ph, sp. eexists. repeat split; eassumption.
Qed.

(** C6.  For every record that [source_to_row] flattens into a row,
    photometry and spectra extraction succeed on the record, and the row's
    [n_photometry] is the length of the extracted photometry list,
    [has_photometry] is [n_photometry > 0], and likewise [n_spectra] and
    [has_spectra] for the extracted spectra list.  A row is produced for
    every valid record on which the three extractors succeed. *)
Theorem source_row_counts_match_lists (obj : value) :
  (forall row,
     source_to_row obj = Ok (Some row) ->
     exists o ph sp,
       obj = VDict o
       /\ parse_photometry o = Ok ph
       /\ parse_spectra o = Ok sp
       /\ dict_get row "n_photometry" = VInt (len ph)
       /\ dict_get row "has_photometry" = VBool (0 <? len ph)%Z
       /\ dict_get row "n_spectra" = VInt (len sp)
       /\ dict_get row "has_spectra" = VBool (0 <? len sp)%Z)
  /\ (forall o ph sp l,
        obj = VDict o ->
        validate_source o = Ok tt ->
        parse_photometry o = Ok ph ->
        parse_spectra o = Ok sp ->
        parse_label o = Ok l ->
        exists row, source_to_row obj = Ok (Some row)).
Proof.
  split.
  - intros row H.
    destruct (source_to_row_some_inv obj row H)
      as [o [ph [sp [l [-> [Hv [Hp [Hs Hl]]]]]]]].
    rewrite (source_to_row_valid o ph sp l Hv Hp Hs Hl) in H.
    injection H as <-.
    exists o, ph, sp. repeat split; assumption.
  - intros o ph sp l -> Hv Hp Hs Hl.
    rewrite (source_to_row_valid o ph sp l Hv Hp Hs Hl). eauto.
Qed.

Lemma source_row_counts_match_lists_witness :
  exists row,
    source_to_row (VDict sample.full_source) = Ok (Some row)
    /\ dict_get row "n_photometry" = VInt 4
    /\ dict_get row "has_photometry" = VBool true
    /\ dict_get row "n_spectra" = VInt 0
    /\ dict_get row "has_spectra" = VBool false.
Proof.
  destruct (proj2 (source_row_counts_match_lists (VDict sample.full_source))
              sample.full_source sample.points [] VNone
              eq_refl eq_refl eq_refl eq_refl eq_refl) as [row H].
  exists row. split; [exact H|].
  destruct (proj1 (source_row_counts_match_lists _) row H)
    as [o [ph [sp [Ho [Hp [Hs [H1 [H2 [H3 H4]]]]]]]]].
  injection Ho as <-.
  vm_compute in Hp. injection Hp as <-.
  vm_compute in Hs. injection Hs as <-.
  repeat split; assumption.
Defined.

(** ** Columns: missing cells, minimum and maximum *)


(** The comparison of binary64 floats is a total preorder on the cells
    that are not NaN. *)

















(** ** Distinct values and sorting *)









(** ** Lightcurve summarizer *)









(** The example of the specification: detections with fluxes 1.0 and 3.0
    at jd 10.0 and 12.0; an earlier row without flux does not widen the
    time span. *)
Example summarize_lightcurve_example :
  summarize_lightcurve (Table sample.lightcurve)
  = Ok (mk_summary 3 2 ["g"; "r"] (Num 1) (Num 3) (Num 2)).
Proof. vm_compute. reflexivity. Qed.

Example summarize_lightcurve_without_flux :
  summarize_lightcurve (Table sample.upper_limits)
  = Ok (mk_summary 1 0 ["g"] Absent Absent Absent).
Proof. vm_compute. reflexivity. Qed.

(** The difference is the float64 one: 0.8 - 0.1 is rounded, and two
    detections at plus infinity give NaN. *)
Example summarize_lightcurve_rounds :
  summarize_lightcurve (Table sample.close_detections)
  = Ok (mk_summary 2 2 [] (Num 1) (Num 2) (Num 0.70000000000000007)).
Proof. vm_compute. reflexivity. Qed.

Example summarize_lightcurve_infinite_jd :
  summarize_lightcurve (Table sample.unbounded_detections)
  = Ok (mk_summary 2 2 [] (Num 1) (Num 2) (Num nan)).
Proof. vm_compute. reflexivity. Qed.

(** ** Strings *)

Lemma append_assoc (a b c : string) :
  ((a ++ b) ++ c = a ++ (b ++ c))%string.
Proof. induction a as [|x a IH]; simpl; [reflexivity | now rewrite IH]. Qed.

Lemma prefix_app (s t : string) : String.prefix s (s ++ t) = true.
Proof.
  induction s as [|c s IH]; simpl; [now destruct t|].
  destruct (ascii_dec c c); [exact IH | congruence].
Qed.

Lemma str_in_prefix (s t : string) :
  String.prefix s t = true -> str_in s t = true.
Proof. intros H. destruct t; cbn [str_in]; now rewrite H. Qed.

Lemma str_in_app (pre s post : string) :
  str_in s (pre ++ s ++ post) = true.
Proof.
  induction pre as [|c pre IH].
  - change (str_in s (s ++ post) = true). apply str_in_prefix, prefix_app.
  - change (str_in s (String c (pre ++ s ++ post)) = true).
    cbn [str_in]. rewrite IH. apply orb_true_r.
Qed.

Lemma join_In (sep p : string) (parts : list string) :
  In p parts -> exists pre post, (join sep parts = pre ++ p ++ post)%string.
Proof.
  induction parts as [|x parts IH]; [intros []|].
  intros [->|H].
  - destruct parts as [|y parts].
    + exists ""%string, ""%string. simpl.
      induction p as [|c p IHp]; simpl; [reflexivity | now rewrite <- IHp].
    + exists ""%string, (sep ++ join sep (y :: parts))%string. reflexivity.
  - destruct (IH H) as [pre [post E]].
    destruct parts as [|y parts]; [destruct H|].
    exists (x ++ sep ++ pre)%string, post.
    change (join sep (x :: y :: parts))
      with (x ++ sep ++ join sep (y :: parts))%string.
    rewrite E. now rewrite !append_assoc.
Qed.

Lemma join_snoc (sep x : string) (parts : list string) :
  parts <> [] ->
  (join sep (parts ++ [x]) = (join sep parts ++ sep) ++ x)%string.
Proof.
  induction parts as [|y parts IH]; [congruence|]. intros _.
  destruct parts as [|z parts]; [now rewrite append_assoc|].
  change (join sep ((y :: z :: parts) ++ [x]))
    with (y ++ sep ++ join sep ((z :: parts) ++ [x]))%string.
  rewrite IH by discriminate.
  change (join sep (y :: z :: parts))
    with (y ++ sep ++ join sep (z :: parts))%string.
  now rewrite !append_assoc.
Qed.

Lemma rstrip_app (a b : string) :
  rstrip b <> ""%string -> (rstrip (a ++ b) = a ++ rstrip b)%string.
Proof.
  intros Hb. induction a as [|c a IH]; simpl; [reflexivity|].
  rewrite IH.
  assert (String.eqb (a ++ rstrip b) "" = false) as ->.
  { apply String.eqb_neq. destruct a; simpl; [exact Hb | discriminate]. }
  now rewrite andb_false_r.
Qed.

(** Stripping a text framed by line breaks whose body starts with a
    visible character and ends with a visible line. *)
Lemma strip_framed (c : ascii) (front back : string) :
  is_space c = false ->
  rstrip (back ++ nl) = back ->
  back <> ""%string ->
  (strip (nl ++ (String c front ++ back) ++ nl)
   = String c front ++ back)%string.
Proof.
  intros Hc Hback Hne. unfold strip.
  change (lstrip (nl ++ (String c front ++ back) ++ nl))
    with (lstrip (String c ((front ++ back) ++ nl))).
  cbn [lstrip]. rewrite Hc.
  change (String c ((front ++ back) ++ nl))
    with ((String c front ++ back) ++ nl)%string.
  rewrite append_assoc, rstrip_app; rewrite Hback; [reflexivity | exact Hne].
Qed.

(** ** Prompt builder *)

Section PromptFacts.

Variable float_repr : Q -> string.
Variable str_repr : string -> string.

Let lines := prompt_lines float_repr str_repr.
Let prompt := build_prompt float_repr str_repr.
Let str := py_str float_repr str_repr.

(** [strip] removes exactly the two framing line breaks. *)
Lemma build_prompt_is_joined_lines (source_row lc_summary : dict) :
  prompt source_row lc_summary = join nl (lines source_row lc_summary).
Proof.
  unfold prompt, build_prompt.
  assert (prompt_lines float_repr str_repr source_row lc_summary
          = removelast (lines source_row lc_summary)
            ++ ["Be concise and explicit about uncertainty."%string]) as E
    by reflexivity.
  unfold lines. rewrite E at 1 2. rewrite join_snoc by discriminate.
  eapply (strip_framed "T"); [reflexivity | reflexivity | discriminate].
Qed.

Lemma line_in_prompt (source_row lc_summary : dict) (line : string) :
  In line (lines source_row lc_summary) ->
  str_in line (prompt source_row lc_summary) = true.
Proof.
  intros H. rewrite build_prompt_is_joined_lines.
  destruct (join_In nl line _ H) as [pre [post ->]]. apply str_in_app.
Qed.

Lemma py_str_absent (d : dict) (k : string) :
  dict_get d k = VNone -> str (dict_get d k) = "None"%string.
Proof. now intros ->. Qed.

End PromptFacts.

Ltac in_list := repeat (first [left; reflexivity | right]).

(** C8.  For every source row and summary, the text [build_prompt]
    returns contains, each as a contiguous run, the eleven labelled lines
    that carry the twelve metadata values read from the source row and the
    five labelled lines that carry the summary values; a value whose key
    is absent (or null) is rendered as the token [None], so that with
    nothing present every one of these lines is still there, with [None]
    in the place of each value. *)
Theorem build_prompt_has_every_field (float_repr : Q -> string)
  (str_repr : string -> string) (source_row lc_summary : dict) :
  let prompt := build_prompt float_repr str_repr source_row lc_summary in
  let src k := py_str float_repr str_repr (dict_get source_row k) in
  let lc k := py_str float_repr str_repr (dict_get lc_summary k) in
  Forall (fun line => str_in line prompt = true)
    [ "ID: " ++ src "id";
      "RA / Dec: " ++ src "ra" ++ ", " ++ src "dec";
      "Detection score: " ++ src "score";
      "- Is transient (heuristic): " ++ src "is_transient";
      "- Is variable star: " ++ src "is_varstar";
      "- Is minor object: " ++ src "is_roid";
      "- TNS reported: " ++ src "has_tns";
      "- Redshift available: " ++ src "has_redshift";
      "- Spectra available: " ++ src "has_spectra";
      "- Redshift value: " ++ src "redshift";
      "- TNS label (if any): " ++ src "label";
      "Number of photometry points: " ++ lc "n_points";
      "Number of detections: " ++ lc "n_detections";
      "Filters used: " ++ lc "filters";
      "Flux range: " ++ lc "flux_min" ++ " to " ++ lc "flux_max";
      "Observed time span (days): " ++ lc "time_span_days" ]%string
  /\ (forall k, dict_get source_row k = VNone -> src k = "None"%string)
  /\ (forall k, dict_get lc_summary k = VNone -> lc k = "None"%string)
  /\ ((forall k, dict_get source_row k = VNone) ->
      (forall k, dict_get lc_summary k = VNone) ->
      Forall (fun line => str_in line prompt = true)
        [ "ID: None";
          "RA / Dec: None, None";
          "Detection score: None";
          "- Is transient (heuristic): None";
          "- Is variable star: None";
          "- Is minor object: None";
          "- TNS reported: None";
          "- Redshift available: None";
          "- Spectra available: None";
          "- Redshift value: None";
          "- TNS label (if any): None";
          "Number of photometry points: None";
          "Number of detections: None";
          "Filters used: None";
          "Flux range: None to None";
          "Observed time span (days): None" ]%string).
Proof.
  intros prompt src lc.
  assert (Forall (fun line => str_in line prompt = true)
            (prompt_lines float_repr str_repr source_row lc_summary)) as Hall.
  { apply Forall_forall. intros line. apply line_in_prompt. }
  rewrite Forall_forall in Hall.
  split; [|split; [|split]].
  - repeat (constructor; [apply Hall; unfold prompt_lines; in_list|]).
    constructor.
  - intros k. apply py_str_absent.
  - intros k. apply py_str_absent.
  - intros Hs Hl.
    repeat (constructor;
            [apply Hall; unfold prompt_lines; rewrite ?Hs, ?Hl; in_list|]).
    constructor.
Qed.

Lemma build_prompt_has_every_field_witness :
  Forall (fun line =>
            str_in line (build_prompt sample.float_repr sample.str_repr [] [])
            = true)
    [ "ID: None";
      "RA / Dec: None, None";
      "Detection score: None";
      "- Is transient (heuristic): None";
      "- Is variable star: None";
      "- Is minor object: None";
      "- TNS reported: None";
      "- Redshift available: None";
      "- Spectra available: None";
      "- Redshift value: None";
      "- TNS label (if any): None";
      "Number of photometry points: None";
      "Number of detections: None";
      "Filters used: None";
      "Flux range: None to None";
      "Observed time span (days): None" ]%string.
Proof.
  apply (proj2 (proj2 (proj2
           (build_prompt_has_every_field sample.float_repr sample.str_repr
              [] []))));
    intros k; reflexivity.
Defined.

(** The whole text on a row and a summary with entries missing. *)
Example build_prompt_example :
  build_prompt sample.float_repr sample.str_repr
    sample.prompt_row sample.prompt_summary
  = "The astronomer is mainly interested in:
- Supernovae
- Kilonovae
- Other extragalactic transients

They want to avoid:
- Galactic variable stars
- Minor objects
- Artifacts

=== Source metadata ===
ID: s1
RA / Dec: 10, -5
Detection score: None

Pipeline flags:
- Is transient (heuristic): True
- Is variable star: None
- Is minor object: None

High-confidence signals:
- TNS reported: False
- Redshift available: None
- Spectra available: None
- Redshift value: None
- TNS label (if any): SN Ia

=== Lightcurve summary ===
Number of photometry points: 3
Number of detections: 2
Filters used: ['g', 'r']
Flux range: None to None
Observed time span (days): None

=== Task ===
1. Summarize the key information an astronomer should know.
2. Is this transient likely extragalactic? Briefly justify.
3. Does this transient deserve follow-up observations?
4. If yes, suggest what kind of follow-up (e.g. spectroscopy, more photometry).

Be concise and explicit about uncertainty."%string.
Proof. vm_compute. reflexivity. Qed.

(** ** Lightcurve-level builder *)

Lemma point_rows_spec (sid : value) (ph : list value) (rows : list dict) :
  exists new,
    point_rows sid ph rows = Ok (rows ++ new)
    /\ point_rows sid ph [] = Ok new
    /\ List.length new = List.length (List.filter jd_bearing ph).
Proof.
  revert rows. induction ph as [|p ph IH]; intros rows.
  - exists []. simpl. now rewrite app_nil_r.
  - simpl point_rows. destruct p as [ |b|n|q|s|l|d];
      try (destruct (IH rows) as [new [H1 [H2 H3]]]; exists new;
           simpl; auto; fail).
    rewrite photometry_point_to_row_dict. simpl jd_bearing. simpl List.filter.
    destruct (is_none (dict_get d "jd")); simpl.
    + destruct (IH rows) as [new [H1 [H2 H3]]]. exists new. auto.
    + match goal with
      | |- context [point_rows sid ph (rows ++ [?r])] =>
          destruct (IH (rows ++ [r])) as [new [H1 [H2 H3]]];
          destruct (IH [r]) as [new' [H1' [H2' _]]];
          exists (r :: new)
      end.
      rewrite H2 in H2'. injection H2' as <-.
      rewrite H1, <- app_assoc. simpl app. rewrite H1'. simpl.
      now rewrite H3.
Qed.

Lemma point_rows_acc (sid : value) (ph : list value) (rows : list dict) :
  point_rows sid ph rows
  = (new <- point_rows sid ph [] ;; Ok (rows ++ new)).
Proof.
  destruct (point_rows_spec sid ph rows) as [new [H1 [H2 _]]].
  now rewrite H1, H2.
Qed.

Lemma build_lightcurve_rows_cons (obj : value) (rest : list value)
  (rows : list dict) :
  build_lightcurve_rows (obj :: rest) rows
  = (new <- lightcurve_rows_of obj ;;
     build_lightcurve_rows rest (rows ++ new)).
Proof.
  destruct obj as [ |b|n|q|s|l|o]; simpl; rewrite ?app_nil_r;
    try reflexivity.
  destruct (is_none (dict_get o "id")); simpl;
    [now rewrite app_nil_r|].
  destruct (parse_photometry o) as [ph|e]; simpl; [|reflexivity].
  rewrite point_rows_acc.
  destruct (point_rows (dict_get o "id") ph []); reflexivity.
Qed.

Lemma build_lightcurve_rows_app (a b : list value) (rows : list dict) :
  build_lightcurve_rows (a ++ b) rows
  = (rows' <- build_lightcurve_rows a rows ;; build_lightcurve_rows b rows').
Proof.
  revert rows. induction a as [|x a IH]; intros rows; [reflexivity|].
  rewrite <- app_comm_cons, !build_lightcurve_rows_cons.
  destruct (lightcurve_rows_of x); simpl; [apply IH | reflexivity].
Qed.

Lemma lightcurve_rows_of_error (obj : value) (e : exn) :
  lightcurve_rows_of obj = Raise e -> exists m, e = AttributeError m.
Proof.
  destruct obj as [ |b|n|q|s|l|o]; simpl; try discriminate.
  destruct (is_none (dict_get o "id")); [discriminate|].
  destruct (parse_photometry o) as [ph|e'] eqn:E; simpl.
  - destruct (point_rows_spec (dict_get o "id") ph []) as [new [-> _]].
    discriminate.
  - intros [= <-]. eapply parse_photometry_error; eassumption.
Qed.

Lemma build_lightcurve_rows_error (data : list value) (rows : list dict)
  (e : exn) :
  build_lightcurve_rows data rows = Raise e -> exists m, e = AttributeError m.
Proof.
  revert rows. induction data as [|x data IH]; intros rows; [discriminate|].
  rewrite build_lightcurve_rows_cons.
  destruct (lightcurve_rows_of x) as [new|e'] eqn:E; simpl.
  - apply IH.
  - intros [= <-]. eapply lightcurve_rows_of_error; eassumption.
Qed.

Lemma build_lightcurve_rows_from_acc (data : list value)
  (rows : list dict) :
  build_lightcurve_rows data rows
  = (new <- build_lightcurve_rows data [] ;; Ok (rows ++ new)).
Proof.
  revert rows. induction data as [|x data IH]; intros rows.
  - simpl. now rewrite app_nil_r.
  - rewrite !build_lightcurve_rows_cons.
    destruct (lightcurve_rows_of x) as [new|e]; cbn [bind]; [|reflexivity].
    rewrite (IH (rows ++ new)), (IH ([] ++ new)).
    destruct (build_lightcurve_rows data []) as [more|e]; cbn [bind];
      [|reflexivity].
    now rewrite app_assoc.
Qed.

(** ** Flattening the same record again *)

(** C9.  Both flatteners are functions of the record alone.  Two calls in
    a row on the same record give the same outcome, for [source_to_row]
    and for [source_to_lightcurve_rows]; and nothing flattened before
    changes what a record yields: after any records [before] that gave the
    rows [rows0], a record met twice in a row by the loop of
    [build_dataset], or by the loop of [build_lightcurve_dataset], appends
    the same rows twice, those rows being the ones [source_to_row],
    respectively [source_to_lightcurve_rows], gives for the record. *)
Theorem flattening_twice_gives_identical_rows (obj : value)
  (before : list value) (rows0 : list dict) :
  (r1 <- source_to_row obj ;; r2 <- source_to_row obj ;; Ok (r1, r2))
  = (r <- source_to_row obj ;; Ok (r, r))
  /\ (forall o, obj = VDict o ->
        (r1 <- source_to_lightcurve_rows o ;;
         r2 <- source_to_lightcurve_rows o ;; Ok (r1, r2))
        = (r <- source_to_lightcurve_rows o ;; Ok (r, r)))
  /\ (build_rows before [] = Ok rows0 ->
      build_rows (before ++ [obj; obj]) []
      = (r <- source_rows_of obj ;; Ok (rows0 ++ r ++ r)))
  /\ (build_lightcurve_rows before [] = Ok rows0 ->
      build_lightcurve_rows (before ++ [obj; obj]) []
      = (r <- lightcurve_rows_of obj ;; Ok (rows0 ++ r ++ r)))
  /\ (isinstance_dict obj = true ->
      source_rows_of obj
      = (row <- source_to_row obj ;;
         Ok (match row with Some r => [r] | None => [] end)))
  /\ (forall o, obj = VDict o ->
        is_none (dict_get o "id") = false ->
        lightcurve_rows_of obj = source_to_lightcurve_rows o).
Proof.
  split; [|split; [|split; [|split; [|split]]]].
  - now destruct (source_to_row obj).
  - intros o _. now destruct (source_to_lightcurve_rows o).
  - intros H. rewrite build_rows_app, H. cbn [bind].
    rewrite build_rows_cons.
    destruct (source_rows_of obj) as [r|e] eqn:E; cbn [bind]; [|reflexivity].
    rewrite build_rows_cons, E. cbn [bind build_rows].
    now rewrite <- app_assoc.
  - intros H. rewrite build_lightcurve_rows_app, H. cbn [bind].
    rewrite build_lightcurve_rows_cons.
    destruct (lightcurve_rows_of obj) as [r|e] eqn:E; cbn [bind];
      [|reflexivity].
    rewrite build_lightcurve_rows_cons, E. cbn [bind build_lightcurve_rows].
    now rewrite <- app_assoc.
  - intros H. unfold source_rows_of. now rewrite H.
  - intros o -> H. simpl. now rewrite H.
Qed.

Lemma flattening_twice_gives_identical_rows_witness :
  (exists rows0 r,
     build_rows [VStr "not-a-dict"; VDict sample.sn_source] [] = Ok rows0
     /\ source_to_row (VDict sample.full_source) = Ok (Some r)
     /\ build_rows ([VStr "not-a-dict"; VDict sample.sn_source]
                    ++ [VDict sample.full_source; VDict sample.full_source])
                   []
        = Ok (rows0 ++ [r] ++ [r]))
  /\ (exists rows0 rs,
        build_lightcurve_rows [VDict sample.anonymous_source] [] = Ok rows0
        /\ source_to_lightcurve_rows sample.observed_source = Ok rs
        /\ build_lightcurve_rows
             ([VDict sample.anonymous_source]
              ++ [VDict sample.observed_source;
                  VDict sample.observed_source]) []
           = Ok (rows0 ++ rs ++ rs)).
Proof.
  split.
  - destruct (build_rows [VStr "not-a-dict"; VDict sample.sn_source] [])
      as [rows0|e] eqn:E0; [|vm_compute in E0; discriminate E0].
    destruct (source_to_row (VDict sample.full_source)) as [[r|]|e] eqn:E1;
      try (vm_compute in E1; discriminate E1).
    exists rows0, r. split; [reflexivity|]. split; [reflexivity|].
    rewrite (proj1 (proj2 (proj2
               (flattening_twice_gives_identical_rows
                  (VDict sample.full_source) _ rows0))) E0).
    rewrite (proj1 (proj2 (proj2 (proj2 (proj2
               (flattening_twice_gives_identical_rows
                  (VDict sample.full_source) [] []))))) eq_refl).
    now rewrite E1.
  - destruct (build_lightcurve_rows [VDict sample.anonymous_source] [])
      as [rows0|e] eqn:E0; [|vm_compute in E0; discriminate E0].
    destruct (source_to_lightcurve_rows sample.observed_source)
      as [rs|e] eqn:E1; [|vm_compute in E1; discriminate E1].
    exists rows0, rs. split; [reflexivity|]. split; [reflexivity|].
    rewrite (proj1 (proj2 (proj2 (proj2
               (flattening_twice_gives_identical_rows
                  (VDict sample.observed_source) _ rows0)))) E0).
    rewrite (proj2 (proj2 (proj2 (proj2 (proj2
               (flattening_twice_gives_identical_rows
                  (VDict sample.observed_source) [] [])))))
               sample.observed_source eq_refl eq_refl).
    now rewrite E1.
Defined.

(** ** The lightcurve build and the required fields *)

Lemma lightcurve_rows_of_reads_id_and_tns (o o' : dict) :
  dict_get o "id" = dict_get o' "id" ->
  dict_get o "tns_info" = dict_get o' "tns_info" ->
  lightcurve_rows_of (VDict o) = lightcurve_rows_of (VDict o').
Proof.
  intros Hid Htns. simpl. unfold parse_photometry. now rewrite Hid, Htns.
Qed.

(** C10.  [build_lightcurve_dataset] (i) gives the same outcome with a
    mapping whose [id] is absent or null taken out of its input; (ii)
    never raises [KeyError], the error of [validate_source], and raises
    nothing but the extractor's [AttributeError]; (iii) looks at nothing
    of a record but its [id] and its [tns_info], so [ra], [dec] and
    [score] may be missing; and (iv) from every record with an [id],
    wherever it stands in the input, whose photometry extraction gives
    [ph], it takes one row per point of [ph] that is a mapping with a
    non-null [jd]: the rows of [source_to_lightcurve_rows], placed between
    the rows of the records before it and the rows of the records after
    it. *)
Theorem build_lightcurve_dataset_never_validates (data : list value) :
  (forall pre o post,
     data = pre ++ VDict o :: post ->
     dict_get o "id" = VNone ->
     build_lightcurve_dataset data = build_lightcurve_dataset (pre ++ post))
  /\ (forall e,
        build_lightcurve_dataset data = Raise e ->
        (forall arg, e <> KeyError arg) /\ exists m, e = AttributeError m)
  /\ (forall pre o o' post,
        data = pre ++ VDict o :: post ->
        dict_get o "id" = dict_get o' "id" ->
        dict_get o "tns_info" = dict_get o' "tns_info" ->
        build_lightcurve_dataset data
        = build_lightcurve_dataset (pre ++ VDict o' :: post))
  /\ (forall pre o post ph,
        data = pre ++ VDict o :: post ->
        dict_get o "id" <> VNone ->
        parse_photometry o = Ok ph ->
        exists rows,
          source_to_lightcurve_rows o = Ok rows
          /\ List.length rows = List.length (List.filter jd_bearing ph)
          /\ forall before after,
               build_lightcurve_rows pre [] = Ok before ->
               build_lightcurve_rows post [] = Ok after ->
               build_lightcurve_dataset data
               = Ok (Pd.DataFrame_of_records (before ++ rows ++ after))).
Proof.
  unfold build_lightcurve_dataset. split; [|split; [|split]].
  - intros pre o post -> Hid.
    rewrite !build_lightcurve_rows_app.
    destruct (build_lightcurve_rows pre []) as [rows|e]; cbn [bind];
      [|reflexivity].
    rewrite build_lightcurve_rows_cons. cbn [lightcurve_rows_of].
    rewrite Hid. cbn [is_none bind]. now rewrite app_nil_r.
  - intros e H.
    destruct (build_lightcurve_rows data []) as [rows|e'] eqn:E;
      simpl in H; [discriminate|]. injection H as <-.
    destruct (build_lightcurve_rows_error data [] e' E) as [m ->].
    split; [discriminate | eauto].
  - intros pre o o' post -> Hid Htns.
    rewrite !build_lightcurve_rows_app.
    destruct (build_lightcurve_rows pre []) as [rows|e]; cbn [bind];
      [|reflexivity].
    rewrite !build_lightcurve_rows_cons.
    now rewrite (lightcurve_rows_of_reads_id_and_tns o o' Hid Htns).
  - intros pre o post ph -> Hid Hph.
    destruct (point_rows_spec (dict_get o "id") ph []) as [rows [_ [H2 H3]]].
    assert (lightcurve_rows_of (VDict o) = Ok rows) as Hrows.
    { cbn [lightcurve_rows_of].
      destruct (is_none (dict_get o "id")) eqn:N.
      { apply is_none_spec in N. contradiction. }
      rewrite Hph. cbn [bind]. exact H2. }
    exists rows. split; [|split; [exact H3|]].
    + unfold source_to_lightcurve_rows. rewrite Hph. cbn [bind]. exact H2.
    + intros before after Hb Ha.
      rewrite build_lightcurve_rows_app, Hb. cbn [bind].
      rewrite build_lightcurve_rows_cons, Hrows. cbn [bind].
      rewrite build_lightcurve_rows_from_acc, Ha. cbn [bind].
      now rewrite <- app_assoc.
Qed.

Lemma build_lightcurve_dataset_never_validates_witness :
  build_lightcurve_dataset
    ([VStr "not-a-dict"]
     ++ VDict sample.anonymous_source :: [VDict sample.observed_source])
  = build_lightcurve_dataset
      ([VStr "not-a-dict"] ++ [VDict sample.observed_source])
  /\ build_lightcurve_dataset
       ([] ++ VDict sample.observed_source :: [VDict sample.anonymous_source])
     = build_lightcurve_dataset
         ([] ++ VDict sample.full_source :: [VDict sample.anonymous_source])
  /\ exists rows,
       source_to_lightcurve_rows sample.observed_source = Ok rows
       /\ List.length rows = 2%nat
       /\ build_lightcurve_dataset
            ([VDict sample.observed_source]
             ++ VDict sample.observed_source
                :: [VDict sample.anonymous_source; VDict sample.full_source])
          = Ok (Pd.DataFrame_of_records (rows ++ rows ++ rows)).
Proof.
  split; [|split].
  - apply (proj1 (build_lightcurve_dataset_never_validates _)
             [VStr "not-a-dict"] sample.anonymous_source
             [VDict sample.observed_source] eq_refl).
    reflexivity.
  - apply (proj1 (proj2 (proj2 (build_lightcurve_dataset_never_validates _)))
             [] sample.observed_source sample.full_source
             [VDict sample.anonymous_source] eq_refl);
      reflexivity.
  - destruct (proj2 (proj2 (proj2
               (build_lightcurve_dataset_never_validates
                  ([VDict sample.observed_source]
                   ++ VDict sample.observed_source
                      :: [VDict sample.anonymous_source;
                          VDict sample.full_source]))))
               [VDict sample.observed_source] sample.observed_source
               [VDict sample.anonymous_source; VDict sample.full_source]
               sample.points eq_refl)
      as [rows [H1 [H2 H3]]].
    + discriminate.
    + reflexivity.
    + exists rows. split; [exact H1|]. split; [exact H2|].
      apply H3; rewrite <- H1; vm_compute; reflexivity.
Defined.

(** The contrast with the source build, on one record that has an [id]
    and a photometry point but no [ra], [dec] or [score]. *)
Example lightcurve_build_succeeds_where_source_build_fails :
  build_dataset [VDict sample.observed_source]
  = Raise (KeyError "Missing required field: ra")
  /\ build_lightcurve_dataset [VDict sample.observed_source]
     = Ok (Pd.mkDataFrame lightcurve_columns
             [[("id", VStr "s1"); ("jd", VFloat 10); ("flux", VFloat 1);
               ("flux_err", VNone); ("filter", VStr "g");
               ("is_detection", VBool true)];
              [("id", VStr "s1"); ("jd", VFloat 12); ("flux", VNone);
               ("flux_err", VNone); ("filter", VNone);
               ("is_detection", VBool false)]]).
Proof. split; vm_compute; reflexivity. Qed.

(* ================================================================= *)
(** * Further properties *)
(* ================================================================= *)

(** ** The extractors, case by case *)

Lemma py_or_dict (t : value) :
  truthy t && negb (isinstance_dict t) = false ->
  py_or t (VDict []) = match t with VDict d => VDict d | _ => VDict [] end.
Proof.
  unfold py_or. destruct t as [ |b|n|q|s|l|d]; simpl; try reflexivity.
  - destruct b; simpl; [discriminate | reflexivity].
  - destruct (Z.eqb n 0); simpl; [reflexivity | discriminate].
  - destruct (Z.eqb (Qnum q) 0); simpl; [reflexivity | discriminate].
  - destruct (String.eqb s ""); simpl; [reflexivity | discriminate].
  - destruct l; simpl; [reflexivity | discriminate].
  - now destruct d.
Qed.

Lemma py_or_non_dict (t : value) :
  truthy t && negb (isinstance_dict t) = true -> py_or t (VDict []) = t.
Proof.
  unfold py_or. intros H. apply andb_prop in H. now rewrite (proj1 H).
Qed.

Lemma py_get_non_dict (t : value) (k : string) :
  isinstance_dict t = false -> py_get t k = Raise (no_get t).
Proof. destruct t; simpl; intros H; try reflexivity; discriminate. Qed.

Lemma list_or_empty (raw : value) :
  match py_or raw (VList []) with VList l => Ok l | _ => Ok [] end
  = Ok (match raw with VList l => l | _ => [] end).
Proof.
  unfold py_or. destruct raw as [ |b|n|q|s|l|d]; simpl; try reflexivity.
  - now destruct b.
  - now destruct (Z.eqb n 0).
  - now destruct (Z.eqb (Qnum q) 0).
  - now destruct (String.eqb s "").
  - now destruct l.
  - now destruct d.
Qed.

Lemma extract_cases (t : value) (k : string) :
  (raw <- py_get (py_or t (VDict [])) k ;;
   match py_or raw (VList []) with VList l => Ok l | _ => Ok [] end)
  = if truthy t && negb (isinstance_dict t) then Raise (no_get t)
    else Ok (nested_list t k).
Proof.
  destruct (truthy t && negb (isinstance_dict t)) eqn:E.
  - rewrite (py_or_non_dict t E). apply andb_prop in E.
    rewrite py_get_non_dict; [reflexivity|].
    now destruct (isinstance_dict t).
  - rewrite (py_or_dict t E).
    destruct t; simpl; try reflexivity. apply list_or_empty.
Qed.

(** X1.  Photometry and spectra extraction raise [AttributeError] exactly when
    [tns_info] is truthy and not a mapping; in every other case they
    return the nested value when it is a list and the empty list when it
    is anything else. *)
Theorem extractors_by_cases (obj : dict) :
  parse_photometry obj
  = (if truthy (dict_get obj "tns_info")
        && negb (isinstance_dict (dict_get obj "tns_info"))
     then Raise (no_get (dict_get obj "tns_info"))
     else Ok (nested_list (dict_get obj "tns_info") "photometry"))
  /\ parse_spectra obj
     = (if truthy (dict_get obj "tns_info")
           && negb (isinstance_dict (dict_get obj "tns_info"))
        then Raise (no_get (dict_get obj "tns_info"))
        else Ok (nested_list (dict_get obj "tns_info") "spectra")).
Proof. split; apply extract_cases. Qed.

Lemma parse_label_eq (obj : dict) :
  parse_label obj
  = if truthy (dict_get obj "tns_info")
       && negb (isinstance_dict (dict_get obj "tns_info"))
    then Raise (no_get (dict_get obj "tns_info"))
    else match dict_get obj "tns_info" with
         | VDict d =>
             match dict_get d "object_type" with
             | VNone => Ok VNone
             | VDict ot => Ok (dict_get ot "name")
             | v => Raise (no_get v)
             end
         | _ => Ok VNone
         end.
Proof.
  unfold parse_label.
  destruct (truthy (dict_get obj "tns_info")
            && negb (isinstance_dict (dict_get obj "tns_info"))) eqn:E.
  - rewrite (py_or_non_dict _ E). apply andb_prop in E.
    rewrite py_get_non_dict; [reflexivity|].
    now destruct (isinstance_dict (dict_get obj "tns_info")).
  - rewrite (py_or_dict _ E).
    destruct (dict_get obj "tns_info"); simpl; try reflexivity.
    now destruct (dict_get d "object_type").
Qed.

(** X2.  [parse_label] returns [None] when [tns_info] is falsy or its
    [object_type] is absent or null, the [name] of [object_type] when
    both are mappings, and raises [AttributeError] when [tns_info] is a
    truthy non-mapping or [object_type] is a non-null non-mapping (a bare
    string label, for one). *)
Theorem parse_label_by_cases (obj : dict) :
  (truthy (dict_get obj "tns_info") = false -> parse_label obj = Ok VNone)
  /\ (forall d,
        dict_get obj "tns_info" = VDict d ->
        dict_get d "object_type" = VNone ->
        parse_label obj = Ok VNone)
  /\ (forall d ot,
        dict_get obj "tns_info" = VDict d ->
        dict_get d "object_type" = VDict ot ->
        parse_label obj = Ok (dict_get ot "name"))
  /\ (forall d,
        dict_get obj "tns_info" = VDict d ->
        is_none (dict_get d "object_type") = false ->
        isinstance_dict (dict_get d "object_type") = false ->
        parse_label obj = Raise (no_get (dict_get d "object_type")))
  /\ (truthy (dict_get obj "tns_info") = true ->
      isinstance_dict (dict_get obj "tns_info") = false ->
      parse_label obj = Raise (no_get (dict_get obj "tns_info"))).
Proof.
  rewrite parse_label_eq. repeat split.
  - intros H. rewrite H. simpl.
    destruct (dict_get obj "tns_info") as [ | | | | | |d]; try reflexivity.
    destruct d; [reflexivity | discriminate].
  - intros d -> H. simpl. rewrite andb_false_r. now rewrite H.
  - intros d ot -> H. simpl. rewrite andb_false_r. now rewrite H.
  - intros d -> H1 H2. simpl. rewrite andb_false_r.
    destruct (dict_get d "object_type"); try reflexivity; discriminate.
  - intros H1 H2. now rewrite H1, H2.
Qed.

Lemma parse_label_by_cases_witness :
  parse_label sample.bare_source = Ok VNone
  /\ parse_label [("tns_info", VDict [("photometry", VList [])])] = Ok VNone
  /\ parse_label sample.sn_source = Ok (VStr "SN Ia")
  /\ parse_label [("tns_info", VDict [("object_type", VStr "SN Ia")])]
     = Raise (AttributeError "'str' object has no attribute 'get'")
  /\ parse_label sample.text_tns_source
     = Raise (AttributeError "'str' object has no attribute 'get'").
Proof.
  split; [|split; [|split; [|split]]].
  - apply (proj1 (parse_label_by_cases _)). reflexivity.
  - apply (proj1 (proj2
             (parse_label_by_cases
                [("tns_info", VDict [("photometry", VList [])])]))
             [("photometry", VList [])] eq_refl).
    reflexivity.
  - apply (proj1 (proj2 (proj2 (parse_label_by_cases sample.sn_source)))
             [("object_type", VDict [("name", VStr "SN Ia")])]
             [("name", VStr "SN Ia")] eq_refl).
    reflexivity.
  - apply (proj1 (proj2 (proj2 (proj2
             (parse_label_by_cases
                [("tns_info", VDict [("object_type", VStr "SN Ia")])]))))
             [("object_type", VStr "SN Ia")] eq_refl); reflexivity.
  - apply (proj2 (proj2 (proj2 (proj2
             (parse_label_by_cases sample.text_tns_source)))));
      reflexivity.
Defined.

(** ** Metadata extraction *)

Lemma validate_source_error (obj : dict) (e : exn) :
  validate_source obj = Raise e ->
  exists f, In f required_fields
            /\ dict_contains obj f = false
            /\ e = KeyError ("Missing required field: " ++ f).
Proof.
  unfold validate_source, required_fields. simpl.
  destruct (dict_contains obj "id") eqn:E1; simpl;
    [|intros [= <-]; exists "id"%string; simpl; auto].
  destruct (dict_contains obj "ra") eqn:E2; simpl;
    [|intros [= <-]; exists "ra"%string; simpl; auto].
  destruct (dict_contains obj "dec") eqn:E3; simpl;
    [|intros [= <-]; exists "dec"%string; simpl; auto].
  destruct (dict_contains obj "score") eqn:E4; simpl;
    [discriminate | intros [= <-]; exists "score"%string; simpl; auto 6].
Qed.

(** X3.  [parse_metadata] fails exactly when validation does, with the same
    missing-field [KeyError] (its three subscripts never raise, and it
    never looks at [tns_info]); otherwise it returns the six entries,
    [transient] under the name [is_transient], an absent [redshift] or
    [transient] as [None]. *)
Theorem parse_metadata_after_validation (obj : dict) :
  (forall e, validate_source obj = Raise e -> parse_metadata obj = Raise e)
  /\ (validate_source obj = Ok tt ->
      parse_metadata obj
      = Ok [ ("id", dict_get obj "id");
             ("ra", dict_get obj "ra");
             ("dec", dict_get obj "dec");
             ("redshift", dict_get obj "redshift");
             ("score", dict_get obj "score");
             ("is_transient", dict_get obj "transient") ])
  /\ (forall e,
        parse_metadata obj = Raise e ->
        exists f, In f required_fields
                  /\ dict_contains obj f = false
                  /\ e = KeyError ("Missing required field: " ++ f)).
Proof.
  assert (validate_source obj = Ok tt ->
          parse_metadata obj
          = Ok [ ("id", dict_get obj "id");
                 ("ra", dict_get obj "ra");
                 ("dec", dict_get obj "dec");
                 ("redshift", dict_get obj "redshift");
                 ("score", dict_get obj "score");
                 ("is_transient", dict_get obj "transient") ]) as Hok.
  { intros Hv. unfold parse_metadata. rewrite Hv. cbn [bind].
    pose proof (validate_source_ok_inv obj Hv) as Hin.
    rewrite !dict_item_present by (apply Hin; simpl; tauto).
    reflexivity. }
  split; [|split].
  - intros e Hv. unfold parse_metadata. now rewrite Hv.
  - exact Hok.
  - intros e H. destruct (validate_source obj) as [[]|e'] eqn:Hv.
    + rewrite (Hok eq_refl) in H. discriminate.
    + unfold parse_metadata in H. rewrite Hv in H. simpl in H.
      injection H as <-. now apply validate_source_error.
Qed.

Lemma parse_metadata_after_validation_witness :
  parse_metadata sample.no_score_source
  = Raise (KeyError "Missing required field: score")
  /\ parse_metadata sample.text_tns_source
     = Ok [ ("id", VInt 3); ("ra", VInt 0); ("dec", VInt 0);
            ("redshift", VNone); ("score", VFloat 0.5);
            ("is_transient", VNone) ].
Proof.
  split.
  - apply (proj1 (parse_metadata_after_validation _)). reflexivity.
  - apply (proj1 (proj2 (parse_metadata_after_validation
                           sample.text_tns_source))).
    reflexivity.
Defined.

(** ** Outcomes of the source flattener *)

Lemma source_to_row_after_validation (o : dict) :
  validate_source o = Ok tt ->
  source_to_row (VDict o)
  = (label <- parse_label o ;;
     Ok (Some
       [ ("id", dict_get o "id");
         ("ra", dict_get o "ra");
         ("dec", dict_get o "dec");
         ("score", dict_get o "score");
         ("is_transient", dict_get o "transient");
         ("is_varstar", dict_get o "varstar");
         ("is_roid", dict_get o "is_roid");
         ("redshift", dict_get o "redshift");
         ("label", label);
         ("has_tns", VBool (isinstance_dict (dict_get o "tns_info")));
         ("has_redshift", VBool (negb (is_none (dict_get o "redshift"))));
         ("has_photometry",
          VBool (0 <? len (nested_list (dict_get o "tns_info")
                             "photometry"))%Z);
         ("has_spectra",
          VBool (0 <? len (nested_list (dict_get o "tns_info")
                             "spectra"))%Z);
         ("n_photometry",
          VInt (len (nested_list (dict_get o "tns_info") "photometry")));
         ("n_spectra",
          VInt (len (nested_list (dict_get o "tns_info") "spectra"))) ])).
Proof.
  intros Hv. cbn [source_to_row]. rewrite Hv. cbn [bind].
  pose proof (validate_source_ok_inv o Hv) as Hin.
  rewrite parse_label_eq.
  unfold parse_photometry, parse_spectra. rewrite !extract_cases.
  destruct (truthy (dict_get o "tns_info")
            && negb (isinstance_dict (dict_get o "tns_info")));
    [reflexivity|].
  cbn [bind]. rewrite !dict_item_present by (apply Hin; simpl; tauto).
  reflexivity.
Qed.

(** X4.  On a mapping, [source_to_row] never answers "no row".  It gives a
    row exactly when validation and label extraction both succeed, and
    otherwise raises the validation error or, validation passed, the
    [AttributeError] of label extraction (which photometry extraction
    raises first with the same argument when [tns_info] is the culprit). *)
Theorem source_to_row_outcomes (o : dict) :
  source_to_row (VDict o) <> Ok None
  /\ ((exists row, source_to_row (VDict o) = Ok (Some row))
      <-> validate_source o = Ok tt /\ exists l, parse_label o = Ok l)
  /\ (forall e,
        source_to_row (VDict o) = Raise e
        <-> validate_source o = Raise e
            \/ (validate_source o = Ok tt /\ parse_label o = Raise e)).
Proof.
  destruct (validate_source o) as [[]|ev] eqn:Hv.
  - rewrite (source_to_row_after_validation o Hv).
    destruct (parse_label o) as [l|el]; cbn [bind].
    + split; [discriminate|]. split.
      * split; [intros _; split; eauto | intros _; eauto].
      * intros e. split; [discriminate|].
        intros [H|[_ H]]; discriminate.
    + split; [discriminate|]. split.
      * split; [intros [row H]; discriminate|].
        intros [_ [l H]]. discriminate.
      * intros e. split; [intros [= <-]; right; auto|].
        intros [H|[_ H]]; [discriminate | now injection H as ->].
  - cbn [source_to_row]. rewrite Hv. cbn [bind].
    split; [discriminate|]. split.
    + split; [intros [row H]; discriminate | intros [H _]; discriminate].
    + intros e. split; [intros [= <-]; now left|].
      intros [H|[H _]]; [now injection H as -> | discriminate].
Qed.

(** X5.  Every source row copies [id], [ra], [dec], [score] and the three
    flags from the record, has [has_redshift] true exactly when its
    [redshift] is not [None], and, when its [has_tns] is [False], has no
    label, no photometry and no spectra. *)
Theorem source_row_fields_agree (obj : value) (row : dict) :
  source_to_row obj = Ok (Some row) ->
  exists o,
    obj = VDict o
    /\ dict_get row "id" = dict_get o "id"
    /\ dict_get row "ra" = dict_get o "ra"
    /\ dict_get row "dec" = dict_get o "dec"
    /\ dict_get row "score" = dict_get o "score"
    /\ dict_get row "is_transient" = dict_get o "transient"
    /\ dict_get row "is_varstar" = dict_get o "varstar"
    /\ dict_get row "is_roid" = dict_get o "is_roid"
    /\ dict_get row "has_redshift"
       = VBool (negb (is_none (dict_get row "redshift")))
    /\ (dict_get row "has_tns" = VBool false ->
        dict_get row "label" = VNone
        /\ dict_get row "n_photometry" = VInt 0
        /\ dict_get row "has_photometry" = VBool false
        /\ dict_get row "n_spectra" = VInt 0
        /\ dict_get row "has_spectra" = VBool false).
Proof.
  intros H.
  destruct (source_to_row_some_inv obj row H)
    as [o [ph [sp [l [-> [Hv [_ [_ Hl]]]]]]]].
  rewrite (source_to_row_after_validation o Hv), Hl in H. cbn [bind] in H.
  injection H as <-. exists o. simpl.
  repeat (split; [reflexivity|]).
  intros Ht. injection Ht as Ht.
  rewrite parse_label_eq, Ht, andb_true_r in Hl.
  assert (l = VNone) as ->.
  { destruct (truthy (dict_get o "tns_info")); [discriminate Hl|].
    destruct (dict_get o "tns_info"); try discriminate Ht;
      now injection Hl as <-. }
  destruct (dict_get o "tns_info"); try discriminate Ht;
    repeat split; reflexivity.
Qed.

Lemma source_row_fields_agree_witness :
  exists row,
    source_to_row (VDict sample.bare_source) = Ok (Some row)
    /\ dict_get row "id" = VInt 1
    /\ dict_get row "label" = VNone
    /\ dict_get row "n_photometry" = VInt 0.
Proof.
  destruct (source_to_row (VDict sample.bare_source)) as [[row|]|e] eqn:E;
    try (vm_compute in E; discriminate E).
  exists row. split; [reflexivity|].
  destruct (source_row_fields_agree _ row E)
    as [o [Ho [Hid [_ [_ [_ [_ [_ [_ [_ Htns]]]]]]]]]].
  injection Ho as <-.
  assert (dict_get row "has_tns" = VBool false) as Hf.
  { vm_compute in E. injection E as <-. reflexivity. }
  destruct (Htns Hf) as [Hl [Hn _]].
  split; [exact Hid|]. split; [exact Hl | exact Hn].
Defined.

(** ** What the source-level table holds *)

Lemma source_to_row_dict_some (o : dict) (r : option dict) :
  source_to_row (VDict o) = Ok r -> exists row, r = Some row.
Proof.
  cbn [source_to_row]. intros H. bind_inv H. injection H as <-. eauto.
Qed.

Lemma build_rows_from_acc (data : list value) (rows : list dict) :
  build_rows data rows
  = (new <- build_rows data [] ;; Ok (rows ++ new)).
Proof.
  revert rows. induction data as [|x data IH]; intros rows.
  - simpl. now rewrite app_nil_r.
  - rewrite !build_rows_cons.
    destruct (source_rows_of x) as [new|e]; cbn [bind]; [|reflexivity].
    rewrite (IH (rows ++ new)), (IH ([] ++ new)).
    destruct (build_rows data []) as [more|e]; cbn [bind]; [|reflexivity].
    now rewrite app_assoc.
Qed.

Lemma build_rows_Forall2 (data : list value) (rows : list dict) :
  build_rows data [] = Ok rows
  <-> Forall2 (fun obj r => source_to_row obj = Ok (Some r))
              (List.filter isinstance_dict data) rows.
Proof.
  revert rows. induction data as [|x data IH]; intros rows.
  - simpl. split.
    + intros [= <-]. constructor.
    + intros H. inversion H. reflexivity.
  - rewrite build_rows_cons. unfold source_rows_of. cbn [List.filter].
    destruct (isinstance_dict x) eqn:D; cbn [negb bind app].
    + destruct x as [ | | | | | |o]; try discriminate D.
      destruct (source_to_row (VDict o)) as [r|e] eqn:E; cbn [bind].
      * destruct (source_to_row_dict_some o r E) as [row ->].
        cbn [app]. rewrite build_rows_from_acc. split.
        -- intros H. bind_inv H. injection H as <-.
           constructor; [exact E | now apply IH].
        -- intros H. inversion H as [|? r0 ? rs H1 H2]; subst.
           rewrite E in H1. injection H1 as <-.
           apply IH in H2. now rewrite H2.
      * split; [discriminate|].
        intros H. inversion H as [|? r0 ? rs H1 H2]; subst.
        rewrite E in H1. discriminate.
    + apply IH.
Qed.

(** X6.  [build_dataset] succeeds exactly when every mapping of its input
    flattens; the table is then [pd.DataFrame] of the rows [source_to_row]
    gives for the mappings, one per mapping and in input order, and its
    number of rows is the number of mappings in the input. *)
Theorem build_dataset_holds_the_rows (data : list value) :
  (forall df,
     build_dataset data = Ok df ->
     exists rows,
       Forall2 (fun obj r => source_to_row obj = Ok (Some r))
               (List.filter isinstance_dict data) rows
       /\ df = Pd.DataFrame_of_records rows
       /\ List.length (Pd.records df)
          = List.length (List.filter isinstance_dict data))
  /\ (forall rows,
        Forall2 (fun obj r => source_to_row obj = Ok (Some r))
                (List.filter isinstance_dict data) rows ->
        build_dataset data = Ok (Pd.DataFrame_of_records rows)).
Proof.
  split.
  - intros df H. unfold build_dataset in H. bind_inv H. injection H as <-.
    apply build_rows_Forall2 in E. exists a.
    split; [exact E|]. split; [reflexivity|].
    cbn [Pd.DataFrame_of_records Pd.records]. rewrite length_map.
    symmetry. eapply Forall2_length. exact E.
  - intros rows H. apply build_rows_Forall2 in H.
    unfold build_dataset. now rewrite H.
Qed.

Lemma build_dataset_holds_the_rows_witness :
  exists df,
    build_dataset [VDict sample.bare_source; VStr "not-a-dict";
                   VDict sample.sn_source] = Ok df
    /\ List.length (Pd.records df) = 2%nat.
Proof.
  destruct (build_dataset [VDict sample.bare_source; VStr "not-a-dict";
                           VDict sample.sn_source]) as [df|e] eqn:E;
    [|vm_compute in E; discriminate E].
  exists df. split; [reflexivity|].
  destruct (proj1 (build_dataset_holds_the_rows _) df E)
    as [rows [_ [_ H]]].
  exact H.
Defined.

Lemma source_rows_of_ok (x : value) (new : list dict) :
  source_rows_of x = Ok new -> exists r, source_to_row x = Ok r.
Proof.
  unfold source_rows_of. destruct x; cbn [isinstance_dict negb];
    try (intros _; eexists; reflexivity).
  intros H. bind_inv H. eauto.
Qed.

Lemma source_rows_of_raise (x : value) (e : exn) :
  source_rows_of x = Raise e <-> source_to_row x = Raise e.
Proof.
  unfold source_rows_of. destruct x; cbn [isinstance_dict negb];
    try (split; discriminate).
  destruct (source_to_row (VDict d)); cbn [bind]; split; congruence.
Qed.

Lemma build_rows_first_failure (data : list value) (acc : list dict)
  (e : exn) :
  build_rows data acc = Raise e
  <-> exists pre x post,
        data = pre ++ x :: post
        /\ (forall y, In y pre -> exists r, source_to_row y = Ok r)
        /\ source_to_row x = Raise e.
Proof.
  split.
  - revert acc. induction data as [|x data IH]; intros acc; [discriminate|].
    rewrite build_rows_cons.
    destruct (source_rows_of x) as [new|e'] eqn:E; cbn [bind].
    + intros H. destruct (IH _ H) as [pre [x' [post [-> [Hpre Hx]]]]].
      exists (x :: pre), x', post. split; [reflexivity|]. split; [|exact Hx].
      intros y [<-|Hy]; [eapply source_rows_of_ok; exact E | now apply Hpre].
    + intros [= <-]. exists [], x, data. split; [reflexivity|].
      split; [intros y []|]. now apply source_rows_of_raise.
  - intros [pre [x [post [-> [Hpre Hx]]]]]. rewrite build_rows_app.
    destruct (build_rows_all_ok pre acc Hpre) as [rows' ->]. cbn [bind].
    rewrite build_rows_cons.
    apply source_rows_of_raise in Hx. now rewrite Hx.
Qed.

(** X7.  [build_dataset] raises [e] exactly when [e] is what [source_to_row]
    raises on the first entry of the input that does not flatten: entries
    after it are never looked at, and nothing is returned for the entries
    before it. *)
Theorem build_dataset_raises_the_first_error (data : list value) (e : exn) :
  build_dataset data = Raise e
  <-> exists pre x post,
        data = pre ++ x :: post
        /\ (forall y, In y pre -> exists r, source_to_row y = Ok r)
        /\ source_to_row x = Raise e.
Proof.
  rewrite <- (build_rows_first_failure data [] e). unfold build_dataset.
  destruct (build_rows data []); cbn [bind]; split; congruence.
Qed.

Lemma build_rows_concat (a b : list value) :
  build_rows (a ++ b) []
  = (ra <- build_rows a [] ;; rb <- build_rows b [] ;; Ok (ra ++ rb)).
Proof.
  rewrite build_rows_app.
  destruct (build_rows a []) as [ra|e]; cbn [bind]; [|reflexivity].
  apply build_rows_from_acc.
Qed.

(** X8.  Building from a concatenated input: a failure on the first part
    is the failure of the whole; when the first part builds, a failure on
    the second part is the failure of the whole; and when both build, the
    whole builds, from the rows of the first part followed by the rows of
    the second, so that its number of rows is the sum of the two. *)
Theorem build_dataset_of_concatenation (a b : list value) :
  (forall e, build_dataset a = Raise e -> build_dataset (a ++ b) = Raise e)
  /\ (forall dfa e,
        build_dataset a = Ok dfa ->
        build_dataset b = Raise e ->
        build_dataset (a ++ b) = Raise e)
  /\ (forall ra rb,
        build_rows a [] = Ok ra ->
        build_rows b [] = Ok rb ->
        build_dataset (a ++ b) = Ok (Pd.DataFrame_of_records (ra ++ rb)))
  /\ (forall dfa dfb,
        build_dataset a = Ok dfa ->
        build_dataset b = Ok dfb ->
        exists df,
          build_dataset (a ++ b) = Ok df
          /\ List.length (Pd.records df)
             = (List.length (Pd.records dfa)
                + List.length (Pd.records dfb))%nat).
Proof.
  unfold build_dataset. rewrite build_rows_concat.
  destruct (build_rows a []) as [ra|ea] eqn:Ea; cbn [bind];
    destruct (build_rows b []) as [rb|eb] eqn:Eb; cbn [bind].
  - split; [discriminate|]. split; [discriminate|]. split.
    + intros ra' rb' [= <-] [= <-]. reflexivity.
    + intros dfa dfb [= <-] [= <-]. eexists. split; [reflexivity|].
      cbn [Pd.DataFrame_of_records Pd.records].
      now rewrite !length_map, length_app.
  - split; [discriminate|]. split; [intros dfa e _ [= <-]; reflexivity|].
    split; discriminate.
  - split; [intros e [= <-]; reflexivity|]. split; [discriminate|].
    split; discriminate.
  - split; [intros e [= <-]; reflexivity|]. split; [discriminate|].
    split; discriminate.
Qed.

Lemma build_dataset_of_concatenation_witness :
  build_dataset ([VDict sample.no_score_source] ++ [VDict sample.sn_source])
  = Raise (KeyError "Missing required field: score")
  /\ exists df,
       build_dataset ([VDict sample.bare_source] ++ [VDict sample.sn_source])
       = Ok df
       /\ List.length (Pd.records df) = 2%nat.
Proof.
  split.
  - apply (proj1 (build_dataset_of_concatenation _ _)). reflexivity.
  - destruct (build_dataset [VDict sample.bare_source]) as [dfa|e] eqn:Ea;
      [|vm_compute in Ea; discriminate Ea].
    destruct (build_dataset [VDict sample.sn_source]) as [dfb|e] eqn:Eb;
      [|vm_compute in Eb; discriminate Eb].
    destruct (proj2 (proj2 (proj2 (build_dataset_of_concatenation
                                     [VDict sample.bare_source]
                                     [VDict sample.sn_source])))
                dfa dfb Ea Eb)
      as [df [H1 H2]].
    exists df. split; [exact H1|]. rewrite H2.
    vm_compute in Ea. injection Ea as <-.
    vm_compute in Eb. injection Eb as <-. reflexivity.
Defined.

Lemma build_dataset_raises_the_first_error_witness :
  build_dataset [VDict sample.bare_source; VDict sample.text_tns_source;
                 VDict sample.no_score_source]
  = Raise (AttributeError "'str' object has no attribute 'get'").
Proof.
  apply (proj2 (build_dataset_raises_the_first_error _ _)).
  exists [VDict sample.bare_source], (VDict sample.text_tns_source),
         [VDict sample.no_score_source].
  split; [reflexivity|]. split; [|reflexivity].
  intros y [<-|[]]. eexists. reflexivity.
Defined.

(** ** What the lightcurve rows are *)

Lemma point_rows_eq (sid : value) (ph : list value) (acc : list dict) :
  point_rows sid ph acc = Ok (acc ++ rows_of_points sid ph).
Proof.
  revert acc. induction ph as [|p ph IH]; intros acc.
  - simpl. now rewrite app_nil_r.
  - cbn [point_rows rows_of_points flat_map].
    destruct p as [ |b|n|q|s|l|d]; try (cbn; apply IH).
    rewrite photometry_point_to_row_dict. fold (point_row sid d).
    destruct (is_none (dict_get d "jd")); cbn [bind app]; [apply IH|].
    rewrite IH, <- app_assoc. reflexivity.
Qed.

Lemma In_rows_of_points (sid : value) (ph : list value) (r : dict) :
  In r (rows_of_points sid ph)
  <-> exists d, In (VDict d) ph
                /\ dict_get d "jd" <> VNone
                /\ r = point_row sid d.
Proof.
  unfold rows_of_points. rewrite in_flat_map. split.
  - intros [p [Hp Hr]]. destruct p as [ | | | | | |d]; try destruct Hr.
    destruct (is_none (dict_get d "jd")) eqn:N; [destruct Hr|].
    destruct Hr as [<-|[]]. exists d. repeat split; auto.
    intros H. rewrite H in N. discriminate.
  - intros [d [Hd [Hjd ->]]]. exists (VDict d). split; [exact Hd|].
    destruct (is_none (dict_get d "jd")) eqn:N; [|now left].
    apply is_none_spec in N. contradiction.
Qed.

Lemma length_rows_of_points (sid : value) (ph : list value) :
  List.length (rows_of_points sid ph)
  = List.length (List.filter jd_bearing ph).
Proof.
  induction ph as [|p ph IH]; [reflexivity|].
  cbn [rows_of_points flat_map List.filter]. fold (rows_of_points sid ph).
  rewrite length_app, IH.
  destruct p as [ | | | | | |d]; try reflexivity.
  cbn [jd_bearing]. now destruct (is_none (dict_get d "jd")).
Qed.

(** X9.  [source_to_lightcurve_rows] fails only through photometry
    extraction.  Otherwise it returns, in the order of the photometry
    list, one row for each entry that is a mapping with a non-null [jd],
    and nothing for the other entries; each row carries the record's [id]
    (also a null one: unlike [build_lightcurve_dataset], this function
    does not skip a record without id), the point's [jd], [flux],
    [fluxerr] and filter name. *)
Theorem source_to_lightcurve_rows_in_order (o : dict) :
  source_to_lightcurve_rows o
  = (photometry <- parse_photometry o ;;
     Ok (rows_of_points (dict_get o "id") photometry))
  /\ (forall ph,
        List.length (rows_of_points (dict_get o "id") ph)
        = List.length (List.filter jd_bearing ph))
  /\ (forall ph r,
        In r (rows_of_points (dict_get o "id") ph)
        <-> exists d, In (VDict d) ph
                      /\ dict_get d "jd" <> VNone
                      /\ r = point_row (dict_get o "id") d)
  /\ (forall a b,
        rows_of_points (dict_get o "id") (a ++ b)
        = rows_of_points (dict_get o "id") a
          ++ rows_of_points (dict_get o "id") b).
Proof.
  split; [|split; [|split]].
  - unfold source_to_lightcurve_rows.
    destruct (parse_photometry o) as [ph|e]; cbn [bind]; [|reflexivity].
    apply point_rows_eq.
  - intros ph. apply length_rows_of_points.
  - intros ph r. apply In_rows_of_points.
  - intros a b. unfold rows_of_points. apply flat_map_app.
Qed.

(** ** What the lightcurve table holds *)

Lemma parse_photometry_ok (o : dict) (ph : list value) :
  parse_photometry o = Ok ph ->
  ph = nested_list (dict_get o "tns_info") "photometry".
Proof.
  unfold parse_photometry. rewrite extract_cases.
  destruct (truthy (dict_get o "tns_info")
            && negb (isinstance_dict (dict_get o "tns_info")));
    [discriminate | now intros [= <-]].
Qed.

Lemma lightcurve_rows_of_ok (x : value) (new : list dict) :
  lightcurve_rows_of x = Ok new -> new = lightcurve_rows_for x.
Proof.
  destruct x as [ | | | | | |o]; cbn [lightcurve_rows_of lightcurve_rows_for];
    try (now intros [= <-]).
  destruct (is_none (dict_get o "id")); [now intros [= <-]|].
  destruct (parse_photometry o) as [ph|e] eqn:E; cbn [bind]; [|discriminate].
  rewrite point_rows_eq. intros [= <-].
  now rewrite (parse_photometry_ok o ph E).
Qed.

Lemma lightcurve_rows_of_fails (x : value) :
  (exists e, lightcurve_rows_of x = Raise e)
  <-> exists o, x = VDict o
                /\ dict_get o "id" <> VNone
                /\ truthy (dict_get o "tns_info") = true
                /\ isinstance_dict (dict_get o "tns_info") = false.
Proof.
  split.
  - intros [e H]. destruct x as [ | | | | | |o]; try discriminate H.
    cbn [lightcurve_rows_of] in H. exists o. split; [reflexivity|].
    destruct (is_none (dict_get o "id")) eqn:N; [discriminate H|].
    split; [intros Hid; rewrite Hid in N; discriminate|].
    unfold parse_photometry in H. rewrite extract_cases in H.
    destruct (truthy (dict_get o "tns_info")) eqn:T;
      destruct (isinstance_dict (dict_get o "tns_info")) eqn:D;
      cbn [andb negb bind] in H; auto;
      rewrite point_rows_eq in H; discriminate H.
  - intros [o [-> [Hid [T D]]]]. cbn [lightcurve_rows_of].
    destruct (is_none (dict_get o "id")) eqn:N.
    { apply is_none_spec in N. contradiction. }
    unfold parse_photometry. rewrite extract_cases, T, D. cbn. eauto.
Qed.

Lemma build_lightcurve_rows_ok (data : list value) (acc rows : list dict) :
  build_lightcurve_rows data acc = Ok rows ->
  rows = acc ++ lightcurve_table_rows data.
Proof.
  revert acc. induction data as [|x data IH]; intros acc.
  - simpl. intros [= <-]. now rewrite app_nil_r.
  - rewrite build_lightcurve_rows_cons.
    destruct (lightcurve_rows_of x) as [new|e] eqn:E; cbn [bind];
      [|discriminate].
    intros H. rewrite (IH _ H), <- app_assoc.
    now rewrite (lightcurve_rows_of_ok x new E).
Qed.

Lemma build_lightcurve_rows_fails (data : list value) (acc : list dict) :
  (exists e, build_lightcurve_rows data acc = Raise e)
  <-> Exists (fun x => exists e, lightcurve_rows_of x = Raise e) data.
Proof.
  revert acc. induction data as [|x data IH]; intros acc.
  - split; [intros [e H]; discriminate | intros H; inversion H].
  - rewrite build_lightcurve_rows_cons, Exists_cons.
    destruct (lightcurve_rows_of x) as [new|e] eqn:E; cbn [bind].
    + rewrite IH. split; [now right|].
      intros [[e H]|H]; [discriminate | exact H].
    + split; [intros _; left; eauto | intros _; eauto].
Qed.

(** X10.  When [build_lightcurve_dataset] succeeds, the rows its loop has
    gathered, of which the table is [pd.DataFrame], are, record after
    record in input order and point after point in list order, the rows
    of the points that are mappings with a non-null [jd], for the records
    that are mappings with a non-null [id]; every other entry and point
    adds nothing, and the table has as many rows. *)
Theorem lightcurve_table_in_input_order (data : list value)
  (df : Pd.DataFrame) :
  build_lightcurve_dataset data = Ok df ->
  build_lightcurve_rows data [] = Ok (lightcurve_table_rows data)
  /\ df = Pd.DataFrame_of_records (lightcurve_table_rows data)
  /\ List.length (Pd.records df)
     = List.length (lightcurve_table_rows data)
  /\ forall a b,
       data = a ++ b ->
       lightcurve_table_rows data
       = lightcurve_table_rows a ++ lightcurve_table_rows b.
Proof.
  intros H. unfold build_lightcurve_dataset in H. bind_inv H.
  injection H as <-.
  pose proof (build_lightcurve_rows_ok _ _ _ E) as Ha. cbn [app] in Ha.
  subst a. split; [reflexivity|]. split; [reflexivity|]. split.
  - cbn [Pd.DataFrame_of_records Pd.records]. apply length_map.
  - intros a b ->. unfold lightcurve_table_rows. apply flat_map_app.
Qed.

Lemma lightcurve_table_in_input_order_witness :
  build_lightcurve_rows
    [VStr "not-a-dict"; VDict sample.anonymous_source;
     VDict sample.observed_source] []
  = Ok [point_row (VStr "s1")
          [("jd", VFloat 10); ("flux", VFloat 1);
           ("filters", VDict [("name", VStr "g")])];
        point_row (VStr "s1")
          [("jd", VFloat 12); ("filters", VStr "r")]].
Proof.
  destruct (build_lightcurve_dataset
              [VStr "not-a-dict"; VDict sample.anonymous_source;
               VDict sample.observed_source]) as [df|e] eqn:E;
    [|vm_compute in E; discriminate E].
  rewrite (proj1 (lightcurve_table_in_input_order _ df E)). reflexivity.
Defined.

(** X11.  Every row that [build_lightcurve_dataset] hands to
    [pd.DataFrame] has the six keys, a non-null [id] that is the [id] of a
    mapping of the input, a non-null [jd], and an [is_detection] that is
    true exactly when the row's [flux] is not [None]. *)
Theorem lightcurve_table_row_invariants (data : list value)
  (df : Pd.DataFrame) :
  build_lightcurve_dataset data = Ok df ->
  exists rows,
    build_lightcurve_rows data [] = Ok rows
    /\ df = Pd.DataFrame_of_records rows
    /\ Forall (fun r =>
                 map fst r = lightcurve_columns
                 /\ dict_get r "id" <> VNone
                 /\ dict_get r "jd" <> VNone
                 /\ dict_get r "is_detection"
                    = VBool (negb (is_none (dict_get r "flux")))
                 /\ exists o, In (VDict o) data
                              /\ dict_get o "id" = dict_get r "id")
              rows.
Proof.
  intros H. unfold build_lightcurve_dataset in H. bind_inv H.
  injection H as <-. exists a. split; [reflexivity|]. split; [reflexivity|].
  rewrite (build_lightcurve_rows_ok _ _ _ E). cbn [app].
  apply Forall_forall. intros r Hr.
  unfold lightcurve_table_rows in Hr. apply in_flat_map in Hr.
  destruct Hr as [x [Hx Hr]].
  destruct x as [ | | | | | |o]; try destruct Hr.
  cbn [lightcurve_rows_for] in Hr.
  destruct (is_none (dict_get o "id")) eqn:N; [destruct Hr|].
  apply In_rows_of_points in Hr. destruct Hr as [d [_ [Hjd ->]]].
  cbn. repeat split.
  - intros Hid. rewrite Hid in N. discriminate.
  - exact Hjd.
  - exists o. split; [exact Hx | reflexivity].
Qed.

Lemma lightcurve_table_row_invariants_witness :
  exists rows,
    build_lightcurve_rows
      [VDict sample.anonymous_source; VDict sample.observed_source] []
    = Ok rows
    /\ Forall (fun r => dict_get r "id" <> VNone
                        /\ dict_get r "jd" <> VNone)
              rows.
Proof.
  destruct (build_lightcurve_dataset
              [VDict sample.anonymous_source; VDict sample.observed_source])
    as [df|e] eqn:E; [|vm_compute in E; discriminate E].
  destruct (lightcurve_table_row_invariants _ df E) as [rows [H1 [_ H2]]].
  exists rows. split; [exact H1|].
  eapply Forall_impl; [|exact H2].
  intros r [_ [Ha [Hb _]]]. split; assumption.
Defined.

(** X12.  [build_lightcurve_dataset] raises exactly when its input holds a
    mapping with a non-null [id] whose [tns_info] is truthy and not a
    mapping; a malformed [tns_info] in a record without id, or in an
    entry that is not a mapping, does no harm. *)
Theorem build_lightcurve_dataset_fails_iff (data : list value) :
  (exists e, build_lightcurve_dataset data = Raise e)
  <-> exists o, In (VDict o) data
                /\ dict_get o "id" <> VNone
                /\ truthy (dict_get o "tns_info") = true
                /\ isinstance_dict (dict_get o "tns_info") = false.
Proof.
  assert ((exists e, build_lightcurve_dataset data = Raise e)
          <-> exists e, build_lightcurve_rows data [] = Raise e) as ->.
  { unfold build_lightcurve_dataset.
    destruct (build_lightcurve_rows data []); cbn [bind];
      split; intros [e' H]; try discriminate; eauto. }
  rewrite build_lightcurve_rows_fails, Exists_exists. split.
  - intros [x [Hx Hf]]. apply lightcurve_rows_of_fails in Hf.
    destruct Hf as [o [-> H]]. eauto.
  - intros [o [Ho H]]. exists (VDict o). split; [exact Ho|].
    apply lightcurve_rows_of_fails. eauto.
Qed.

Lemma build_lightcurve_dataset_fails_iff_witness :
  (exists e,
     build_lightcurve_dataset
       [VDict sample.observed_source; VDict sample.text_tns_source]
     = Raise e)
  /\ ~ (exists e,
          build_lightcurve_dataset
            [VDict sample.observed_source;
             VDict [("ra", VInt 0); ("tns_info", VStr "x")];
             VList [VStr "x"]]
          = Raise e).
Proof.
  split.
  - apply (proj2 (build_lightcurve_dataset_fails_iff _)).
    exists sample.text_tns_source. split; [right; left; reflexivity|].
    split; [discriminate|]. split; reflexivity.
  - intros H. apply (proj1 (build_lightcurve_dataset_fails_iff _)) in H.
    destruct H as [o [[H|[H|[H|[]]]] [Hid [T D]]]];
      try discriminate H; injection H as <-.
    + discriminate D.
    + apply Hid. reflexivity.
Defined.

(** ** Bounds on the summary *)











(** ** The frame of the prompt *)

Lemma rstrip_fixed_end (a back : string) :
  rstrip back = back -> back <> ""%string ->
  (rstrip (a ++ back) = a ++ back)%string.
Proof. intros H Hne. rewrite rstrip_app; rewrite H; auto. Qed.

(** X15.  The prompt is exactly the lines of the template joined by line
    breaks, the rendered values inserted as they are: [strip] removes the
    two framing line breaks and nothing else, whatever the values.  It
    begins with the fixed first line, contains the three section titles
    and the four task instructions, and stripping it again changes
    nothing. *)
Theorem build_prompt_keeps_the_template (float_repr : Q -> string)
  (str_repr : string -> string) (source_row lc_summary : dict) :
  build_prompt float_repr str_repr source_row lc_summary
  = join nl (prompt_lines float_repr str_repr source_row lc_summary)
  /\ String.prefix "The astronomer is mainly interested in:"
       (build_prompt float_repr str_repr source_row lc_summary) = true
  /\ Forall (fun line =>
               str_in line
                 (build_prompt float_repr str_repr source_row lc_summary)
               = true)
       [ "=== Source metadata ===";
         "=== Lightcurve summary ===";
         "=== Task ===";
         "1. Summarize the key information an astronomer should know.";
         "2. Is this transient likely extragalactic? Briefly justify.";
         "3. Does this transient deserve follow-up observations?";
         "4. If yes, suggest what kind of follow-up (e.g. spectroscopy, more photometry).";
         "Be concise and explicit about uncertainty." ]%string
  /\ strip (build_prompt float_repr str_repr source_row lc_summary)
     = build_prompt float_repr str_repr source_row lc_summary.
Proof.
  pose proof (build_prompt_is_joined_lines float_repr str_repr
                source_row lc_summary) as E.
  split; [exact E|]. split; [|split].
  - rewrite E. reflexivity.
  - repeat (constructor;
            [apply line_in_prompt; unfold prompt_lines; in_list|]).
    constructor.
  - rewrite E.
    assert (prompt_lines float_repr str_repr source_row lc_summary
            = removelast
                (prompt_lines float_repr str_repr source_row lc_summary)
              ++ ["Be concise and explicit about uncertainty."%string])
      as L by reflexivity.
    rewrite L, join_snoc by discriminate. unfold strip.
    match goal with
    | |- rstrip (lstrip (?front ++ ?back)) = _ =>
        change (lstrip (front ++ back)) with (front ++ back)%string
    end.
    apply rstrip_fixed_end; [reflexivity | discriminate].
Qed.

(** ** The two builders on the same input *)

Lemma Forall2_In_left {A B : Type} (R : A -> B -> Prop) (l : list A)
  (l' : list B) (x : A) :
  Forall2 R l l' -> In x l -> exists y, In y l' /\ R x y.
Proof.
  induction 1 as [|a b l l' Hab _ IH]; intros Hin; [destruct Hin|].
  destruct Hin as [<-|Hin].
  - exists b. split; [now left | exact Hab].
  - destruct (IH Hin) as [y [Hy Hxy]]. exists y. split; [now right | exact Hxy].
Qed.

(** X16.  Whenever [build_dataset] succeeds on an input,
    [build_lightcurve_dataset] succeeds on it too: every record the
    source build accepts has a [tns_info] the photometry extraction can
    read. *)
Theorem lightcurve_build_succeeds_when_source_build_does
  (data : list value) (df : Pd.DataFrame) :
  build_dataset data = Ok df ->
  exists lc, build_lightcurve_dataset data = Ok lc.
Proof.
  intros H. unfold build_dataset in H. bind_inv H. clear H.
  apply build_rows_Forall2 in E.
  unfold build_lightcurve_dataset.
  destruct (build_lightcurve_rows data []) as [rows|e] eqn:L; cbn [bind];
    [eauto|].
  exfalso.
  assert (exists e', build_lightcurve_rows data [] = Raise e') as F by eauto.
  apply build_lightcurve_rows_fails, Exists_exists in F.
  destruct F as [x [Hx Hf]]. apply lightcurve_rows_of_fails in Hf.
  destruct Hf as [o [-> [_ [T D]]]].
  assert (In (VDict o) (List.filter isinstance_dict data)) as Hin
    by (apply filter_In; auto).
  destruct (Forall2_In_left _ _ _ _ E Hin) as [r [_ Hr]].
  destruct (source_to_row_some_inv _ _ Hr)
    as [o' [ph [sp [l [Ho [_ [Hp _]]]]]]].
  injection Ho as <-. unfold parse_photometry in Hp.
  rewrite extract_cases, T, D in Hp. discriminate Hp.
Qed.

Lemma lightcurve_build_succeeds_when_source_build_does_witness :
  exists lc,
    build_lightcurve_dataset
      [VDict sample.bare_source; VDict sample.full_source] = Ok lc.
Proof.
  destruct (build_dataset [VDict sample.bare_source; VDict sample.full_source])
    as [df|e] eqn:E; [|vm_compute in E; discriminate E].
  exact (lightcurve_build_succeeds_when_source_build_does _ df E).
Defined.

(** X17.  A source never has more lightcurve rows than its source row counts
    photometry entries: for every record that flattens into a source row,
    the number of rows it adds to the lightcurve table is at most the
    row's [n_photometry], and it is 0 when [has_photometry] is [False]. *)
Theorem lightcurve_rows_at_most_n_photometry (o : dict) (row : dict) :
  source_to_row (VDict o) = Ok (Some row) ->
  exists n,
    dict_get row "n_photometry" = VInt n
    /\ (len (lightcurve_rows_for (VDict o)) <= n)%Z
    /\ (dict_get row "has_photometry" = VBool false ->
        lightcurve_rows_for (VDict o) = []).
Proof.
  intros H.
  destruct (source_to_row_some_inv _ _ H)
    as [o' [ph [sp [l [Ho [Hv [_ [_ Hl]]]]]]]].
  injection Ho as <-.
  rewrite (source_to_row_after_validation o Hv), Hl in H. cbn [bind] in H.
  injection H as <-.
  exists (len (nested_list (dict_get o "tns_info") "photometry")).
  split; [reflexivity|].
  assert (len (lightcurve_rows_for (VDict o))
          <= len (nested_list (dict_get o "tns_info") "photometry"))%Z as Hle.
  { cbn [lightcurve_rows_for]. unfold len.
    destruct (is_none (dict_get o "id")); [simpl; lia|].
    rewrite length_rows_of_points.
    pose proof (filter_length_le jd_bearing
                  (nested_list (dict_get o "tns_info") "photometry")).
    lia. }
  split; [exact Hle|].
  intros Hhas. cbn in Hhas. injection Hhas as Hhas.
  apply Z.ltb_ge in Hhas.
  destruct (lightcurve_rows_for (VDict o)) as [|r rs] eqn:R; [reflexivity|].
  unfold len in *. simpl List.length in Hle. lia.
Qed.

Lemma lightcurve_rows_at_most_n_photometry_witness :
  exists row n,
    source_to_row (VDict sample.full_source) = Ok (Some row)
    /\ dict_get row "n_photometry" = VInt n
    /\ (len (lightcurve_rows_for (VDict sample.full_source)) <= n)%Z.
Proof.
  destruct (source_to_row (VDict sample.full_source)) as [[row|]|e] eqn:E;
    try (vm_compute in E; discriminate E).
  destruct (lightcurve_rows_at_most_n_photometry _ row E)
    as [n [H1 [H2 _]]].
  exists row, n. split; [reflexivity|]. split; assumption.
Defined.
